(** * FitTrackee federation: activity handlers, visibility policy, fan-out

    A shallow embedding of [fittrackee/federation/activities/activities.py]
    together with the follow graph, the visibility policy and the outbound
    fan-out selector that the handlers and the test suites rely on.

    Python objects that live in the SQLAlchemy session are modelled by an
    explicit world: the persisted tables, the objects of the session whose
    attribute changes were not committed, and the application log.  A Python
    exception leaves the world as it was at the raise, so the monad below
    returns the world on both outcomes. *)

From Stdlib Require Import Ascii.
From stdpp Require Import base option list strings pretty gmap fin_maps fin_sets.

Set Warnings "-register-all".
Open Scope string_scope.

(** ** JSON values of an activity payload *)

Inductive json : Type :=
| JNull
| JBool (b : bool)
| JNum (literal : string)
| JStr (s : string)
| JArr (items : list json)
| JObj (fields : list (string * json)).

(** [d[key]] on a decoded JSON object. *)
Fixpoint dict_get (key : string) (fields : list (string * json)) : option json :=
  match fields with
  | [] => None
  | (k, v) :: rest => if String.eqb k key then Some v else dict_get key rest
  end.

(** [v == s] for a decoded value [v] and a string literal [s]. *)
Definition json_eq_str (v : json) (s : string) : bool :=
  match v with
  | JStr t => String.eqb t s
  | _ => false
  end.

(** ** Exceptions *)

Inductive exn : Type :=
| ActorNotFoundException (message : string)
| ObjectNotFoundException (object_type activity_name : string)
| ActivityException (message : string)
| SportNotFoundException
| NotExistingFollowRequestError
| FollowRequestAlreadyProcessedError
| FollowRequestAlreadyRejectedError
| WorkoutForbiddenException
| PyException (class_name message : string).

(** [e.__class__.__name__] *)
Definition exn_class_name (e : exn) : string :=
  match e with
  | ActorNotFoundException _ => "ActorNotFoundException"
  | ObjectNotFoundException _ _ => "ObjectNotFoundException"
  | ActivityException _ => "ActivityException"
  | SportNotFoundException => "SportNotFoundException"
  | NotExistingFollowRequestError => "NotExistingFollowRequestError"
  | FollowRequestAlreadyProcessedError => "FollowRequestAlreadyProcessedError"
  | FollowRequestAlreadyRejectedError => "FollowRequestAlreadyRejectedError"
  | WorkoutForbiddenException => "WorkoutForbiddenException"
  | PyException c _ => c
  end.

(** [str(e)] *)
Definition exn_str (e : exn) : string :=
  match e with
  | ActorNotFoundException m => m
  | ObjectNotFoundException t a => t +:+ " not found for " +:+ a
  | ActivityException m => m
  | PyException _ m => m
  | _ => ""
  end.

Definition KeyError (key : string) : exn := PyException "KeyError" ("'" +:+ key +:+ "'").

Definition OverflowError (message : string) : exn := PyException "OverflowError" message.

(** ** Data model *)

Inductive PrivacyLevel : Type := PRIVATE | FOLLOWERS | FOLLOWERS_AND_REMOTE | PUBLIC.

#[global] Instance PrivacyLevel_eq_dec : EqDecision PrivacyLevel.
Proof. solve_decision. Defined.

Record Domain : Type := {
  domain_name : string;
  domain_is_remote : bool;
}.

(** A user account; [user_actor_id] is the foreign key to its actor. *)
Record User : Type := {
  user_id : nat;
  user_actor_id : nat;
  user_admin : bool;
}.

(** An actor with its [domain] and [user] relationships loaded. *)
Record Actor : Type := {
  actor_id : nat;
  activitypub_id : string;
  actor_domain : Domain;
  actor_user : User;
  shared_inbox_url : string;
}.

Inductive FollowState : Type := Pending | Accepted | Rejected.

#[global] Instance FollowState_eq_dec : EqDecision FollowState.
Proof. solve_decision. Defined.

(** A parsed [datetime] of a workout date (UTC, minute resolution). *)
Record datetime : Type := {
  dt_year : nat; dt_month : nat; dt_day : nat; dt_hour : nat; dt_minute : nat;
}.

Record Workout : Type := {
  workout_id : nat;
  short_id : string;
  ap_id : option string;
  workout_user : User;   (* the [user] relationship, loaded *)
  sport_id : json;
  title : json;
  ave_speed : json;
  distance : json;
  max_speed : json;
  duration : Z;          (* timedelta, in seconds *)
  moving : Z;            (* timedelta, in seconds *)
  workout_date : datetime;
  workout_visibility : PrivacyLevel;
  map_visibility : PrivacyLevel;
}.

(** The persisted tables.  Follow requests are keyed by
    [(follower_user_id, followed_user_id)], blocks by
    [(blocking user, blocked user)]. *)
Record Db : Type := {
  domains : gmap string Domain;
  actors : gmap string Actor;
  follow_requests : gmap (nat * nat) FollowState;
  blocked_users : gset (nat * nat);
  workouts : list Workout;
  next_id : nat;
}.

(** The world of a handler: the persisted tables, the unit of work of the
    SQLAlchemy session (objects whose attributes were assigned and rows marked
    for deletion, both not yet committed) and the application log. *)
Record World : Type := {
  db : Db;
  session_dirty : list Workout;
  session_deleted : list nat;
  app_log : list string;
}.

Definition set_db (f : Db → Db) (w : World) : World :=
  {| db := f (db w); session_dirty := session_dirty w;
     session_deleted := session_deleted w; app_log := app_log w |}.

Definition set_domains (f : gmap string Domain → gmap string Domain) (d : Db) : Db :=
  {| domains := f (domains d); actors := actors d;
     follow_requests := follow_requests d; blocked_users := blocked_users d;
     workouts := workouts d; next_id := next_id d |}.

Definition set_actors (f : gmap string Actor → gmap string Actor) (d : Db) : Db :=
  {| domains := domains d; actors := f (actors d);
     follow_requests := follow_requests d; blocked_users := blocked_users d;
     workouts := workouts d; next_id := next_id d |}.

Definition set_follow_requests
    (f : gmap (nat * nat) FollowState → gmap (nat * nat) FollowState) (d : Db) : Db :=
  {| domains := domains d; actors := actors d;
     follow_requests := f (follow_requests d); blocked_users := blocked_users d;
     workouts := workouts d; next_id := next_id d |}.

Definition set_workouts (f : list Workout → list Workout) (d : Db) : Db :=
  {| domains := domains d; actors := actors d;
     follow_requests := follow_requests d; blocked_users := blocked_users d;
     workouts := f (workouts d); next_id := next_id d |}.

Definition set_next_id (n : nat) (d : Db) : Db :=
  {| domains := domains d; actors := actors d;
     follow_requests := follow_requests d; blocked_users := blocked_users d;
     workouts := workouts d; next_id := n |}.

(** ** The exception/state monad of a handler *)

Inductive outcome (A : Type) : Type :=
| Returns (a : A)
| Raises (e : exn).
Arguments Returns {A} a.
Arguments Raises {A} e.

Definition M (A : Type) : Type := World → outcome A * World.

Definition ret {A} (a : A) : M A := λ w, (Returns a, w).
Definition raise {A} (e : exn) : M A := λ w, (Raises e, w).
Definition bind {A B} (c : M A) (k : A → M B) : M B :=
  λ w, match c w with
       | (Returns a, w') => k a w'
       | (Raises e, w') => (Raises e, w')
       end.
(** [try: c except Exception as e: h e] *)
Definition try_except {A} (c : M A) (h : exn → M A) : M A :=
  λ w, match c w with
       | (Returns a, w') => (Returns a, w')
       | (Raises e, w') => h e w'
       end.
Definition modify (f : World → World) : M unit := λ w, (Returns tt, f w).
Definition gets {A} (f : World → A) : M A := λ w, (Returns (f w), w).

Notation "'let!' x ':=' c 'in' k" := (bind c (λ x, k))
  (at level 10, x pattern, c at level 100, k at level 200).
Notation "c ';;;' k" := (bind c (λ _, k))
  (at level 100, k at level 200, right associativity).

(** Computations that never touch the persisted tables. *)
Definition keeps_db {A} (c : M A) : Prop := ∀ w r w1, c w = (r, w1) → db w1 = db w.

(** Computations that leave the persisted tables alone when they raise. *)
Definition raises_keep_db {A} (c : M A) : Prop :=
  ∀ w e w1, c w = (Raises e, w1) → db w1 = db w.

Definition logged (msg : string) (w : World) : World :=
  {| db := db w; session_dirty := session_dirty w;
     session_deleted := session_deleted w; app_log := app_log w ++ [msg] |}.

(** [appLog.error(msg)] *)
Definition appLog_error (msg : string) : M unit := modify (logged msg).

(** ** Activities *)

(** The handler classes of [activities.py] that are embedded here
    ([CreateActivity] is left out); [activity_name] is
    [self.__class__.__name__]. *)
Inductive ActivityClass : Type :=
| FollowActivity | AcceptActivity | RejectActivity | UndoActivity
| DeleteActivity | UpdateActivity.

Definition activity_name (cls : ActivityClass) : string :=
  match cls with
  | FollowActivity => "FollowActivity"
  | AcceptActivity => "AcceptActivity"
  | RejectActivity => "RejectActivity"
  | UndoActivity => "UndoActivity"
  | DeleteActivity => "DeleteActivity"
  | UpdateActivity => "UpdateActivity"
  end.

(** The activity envelope: [id], [type] and [actor] are strings, [object]
    is a URL string or a nested structure. *)
Record Activity : Type := {
  act_id : string;
  act_type : string;
  act_actor : string;
  act_object : json;
}.

(** [Actor.query.filter_by(activitypub_id=key).first()]; [activitypub_id]
    is a unique string column, so a key that is not a string matches no row. *)
Definition query_actor (key : json) : M (option Actor) :=
  gets (λ w, match key with
             | JStr url => actors (db w) !! url
             | _ => None
             end).

(** Whether a JSON number literal is decoded as an [int]: it holds digits
    and a sign only, neither a fraction nor an exponent. *)
Fixpoint int_literal (literal : string) : bool :=
  match literal with
  | EmptyString => true
  | String c rest =>
      (Ascii.eqb c "-"
       || (48 <=? Ascii.nat_of_ascii c)%nat && (Ascii.nat_of_ascii c <=? 57)%nat)
      && int_literal rest
  end.

(** [obj[key]] where [obj] was decoded from JSON and [key] is a string:
    only a dict holding the key answers.  The messages are those of
    Python 3.11. *)
Definition subscript (obj : json) (key : string) : M json :=
  let TypeError := PyException "TypeError" in
  match obj with
  | JObj fields =>
      match dict_get key fields with
      | Some v => ret v
      | None => raise (KeyError key)
      end
  | JStr _ => raise (TypeError "string indices must be integers, not 'str'")
  | JArr _ => raise (TypeError "list indices must be integers or slices, not str")
  | JNull => raise (TypeError "'NoneType' object is not subscriptable")
  | JBool _ => raise (TypeError "'bool' object is not subscriptable")
  | JNum literal =>
      if int_literal literal
      then raise (TypeError "'int' object is not subscriptable")
      else raise (TypeError "'float' object is not subscriptable")
  end.

(** Attribute writes on a workout object. *)
Definition with_sport_id (v : json) (o : Workout) : Workout :=
  {| workout_id := workout_id o; short_id := short_id o; ap_id := ap_id o;
     workout_user := workout_user o; sport_id := v; title := title o;
     ave_speed := ave_speed o; distance := distance o; max_speed := max_speed o;
     duration := duration o; moving := moving o; workout_date := workout_date o;
     workout_visibility := workout_visibility o; map_visibility := map_visibility o |}.

Definition with_title (v : json) (o : Workout) : Workout :=
  {| workout_id := workout_id o; short_id := short_id o; ap_id := ap_id o;
     workout_user := workout_user o; sport_id := sport_id o; title := v;
     ave_speed := ave_speed o; distance := distance o; max_speed := max_speed o;
     duration := duration o; moving := moving o; workout_date := workout_date o;
     workout_visibility := workout_visibility o; map_visibility := map_visibility o |}.

Definition with_ave_speed (v : json) (o : Workout) : Workout :=
  {| workout_id := workout_id o; short_id := short_id o; ap_id := ap_id o;
     workout_user := workout_user o; sport_id := sport_id o; title := title o;
     ave_speed := v; distance := distance o; max_speed := max_speed o;
     duration := duration o; moving := moving o; workout_date := workout_date o;
     workout_visibility := workout_visibility o; map_visibility := map_visibility o |}.

Definition with_distance (v : json) (o : Workout) : Workout :=
  {| workout_id := workout_id o; short_id := short_id o; ap_id := ap_id o;
     workout_user := workout_user o; sport_id := sport_id o; title := title o;
     ave_speed := ave_speed o; distance := v; max_speed := max_speed o;
     duration := duration o; moving := moving o; workout_date := workout_date o;
     workout_visibility := workout_visibility o; map_visibility := map_visibility o |}.

Definition with_max_speed (v : json) (o : Workout) : Workout :=
  {| workout_id := workout_id o; short_id := short_id o; ap_id := ap_id o;
     workout_user := workout_user o; sport_id := sport_id o; title := title o;
     ave_speed := ave_speed o; distance := distance o; max_speed := v;
     duration := duration o; moving := moving o; workout_date := workout_date o;
     workout_visibility := workout_visibility o; map_visibility := map_visibility o |}.

Definition with_duration (v : Z) (o : Workout) : Workout :=
  {| workout_id := workout_id o; short_id := short_id o; ap_id := ap_id o;
     workout_user := workout_user o; sport_id := sport_id o; title := title o;
     ave_speed := ave_speed o; distance := distance o; max_speed := max_speed o;
     duration := v; moving := moving o; workout_date := workout_date o;
     workout_visibility := workout_visibility o; map_visibility := map_visibility o |}.

Definition with_moving (v : Z) (o : Workout) : Workout :=
  {| workout_id := workout_id o; short_id := short_id o; ap_id := ap_id o;
     workout_user := workout_user o; sport_id := sport_id o; title := title o;
     ave_speed := ave_speed o; distance := distance o; max_speed := max_speed o;
     duration := duration o; moving := v; workout_date := workout_date o;
     workout_visibility := workout_visibility o; map_visibility := map_visibility o |}.

Definition with_workout_date (v : datetime) (o : Workout) : Workout :=
  {| workout_id := workout_id o; short_id := short_id o; ap_id := ap_id o;
     workout_user := workout_user o; sport_id := sport_id o; title := title o;
     ave_speed := ave_speed o; distance := distance o; max_speed := max_speed o;
     duration := duration o; moving := moving o; workout_date := v;
     workout_visibility := workout_visibility o; map_visibility := map_visibility o |}.

Definition with_workout_visibility (v : PrivacyLevel) (o : Workout) : Workout :=
  {| workout_id := workout_id o; short_id := short_id o; ap_id := ap_id o;
     workout_user := workout_user o; sport_id := sport_id o; title := title o;
     ave_speed := ave_speed o; distance := distance o; max_speed := max_speed o;
     duration := duration o; moving := moving o; workout_date := workout_date o;
     workout_visibility := v; map_visibility := map_visibility o |}.

(** ** The session's view of the workouts *)

Definition replace_workout (obj : Workout) (rows : list Workout) : list Workout :=
  (λ r, if (workout_id r =? workout_id obj)%nat then obj else r) <$> rows.

Definition remove_workout (pk : nat) (rows : list Workout) : list Workout :=
  filter (λ r, workout_id r ≠ pk) rows.

(** The rows as the session sees them: the persisted rows overlaid with the
    objects whose attributes were assigned in this session. *)
Definition session_view (w : World) : list Workout :=
  foldr replace_workout (workouts (db w)) (session_dirty w).

(** [Workout.query.filter_by(ap_id=key).first()]; a [None] key is
    rendered as [ap_id IS NULL], any other key that is not a string matches
    no row. *)
Definition query_workout (key : json) : M (option Workout) :=
  gets (λ w, match key with
             | JStr s => List.find (λ r, bool_decide (ap_id r = Some s)) (session_view w)
             | JNull => List.find (λ r, bool_decide (ap_id r = None)) (session_view w)
             | _ => None
             end).

(** An attribute assignment [obj.attr = v] on the session object [obj]: the
    object becomes (or stays) dirty, with the attribute written on its
    current state. *)
Definition setattr (obj : Workout) (f : Workout → Workout) : M unit :=
  modify (λ w,
    let pk := workout_id obj in
    let current :=
      default obj (List.find (λ r, (workout_id r =? pk)%nat) (session_dirty w)) in
    {| db := db w;
       session_dirty := f current :: filter (λ r, workout_id r ≠ pk) (session_dirty w);
       session_deleted := session_deleted w; app_log := app_log w |}).

(** [db.session.delete(obj)] *)
Definition session_delete (obj : Workout) : M unit :=
  modify (λ w, {| db := db w; session_dirty := session_dirty w;
                  session_deleted := workout_id obj :: session_deleted w;
                  app_log := app_log w |}).

(** [str_in sub s]: Python's [sub in s] on strings. *)
Fixpoint str_in (sub s : string) : bool :=
  String.prefix sub s ||
  match s with
  | EmptyString => false
  | String _ rest => str_in sub rest
  end.

(** ** External collaborators

    Helpers that the handlers import from modules outside
    [federation/activities]: URL parsing, the remote actor's shared inbox,
    the duration and date parsers used by [UpdateActivity], the coercion of
    the [workout_visibility] enum column, the constraint checks of the
    persistence layer at commit time, and the recognition of peer
    instances. *)
Class Collaborators : Type := {
  (** [urlparse(url).netloc] *)
  url_hostname : string → string;
  (** the shared inbox advertised by a remote actor *)
  remote_shared_inbox_url : string → string;
  (** [fittrackee.federation.objects.workout.convert_duration_string_to_seconds] *)
  convert_duration_string_to_seconds : json → outcome Z;
  (** [datetime.strptime(_, WORKOUT_DATE_FORMAT)] *)
  strptime_workout_date : json → outcome datetime;
  (** the enum column [workout_visibility] accepting a wire value *)
  coerce_privacy_level : json → outcome PrivacyLevel;
  (** the exception, if any, that flushing a dirty workout raises *)
  flush_error : Workout → option exn;
  (** whether a domain runs a recognised peer implementation *)
  is_fittrackee_instance : Domain → bool;
}.

Definition lift_outcome {A} (o : outcome A) : M A := λ w, (o, w).

Section Handlers.
Context `{Collaborators}.

(** [db.session.commit()]: flush the unit of work, then make it durable.  A
    failing flush raises and persists nothing. *)
Definition session_commit : M unit :=
  λ w, match omap flush_error (session_dirty w) with
       | e :: _ => (Raises e, w)
       | [] =>
           (Returns tt,
            {| db := set_workouts
                       (λ _, foldr remove_workout (session_view w) (session_deleted w))
                       (db w);
               session_dirty := []; session_deleted := []; app_log := app_log w |})
       end.

(** Modelled from the spec: [get_or_create_remote_domain_from_url] of
    [fittrackee/federation/utils/user.py], which is not part of the sources
    at hand: derive the hostname from the URL and find or create the
    domain. *)
Definition get_or_create_remote_domain_from_url (url : string) : M Domain :=
  let name := url_hostname url in
  let! found := gets (λ w, domains (db w) !! name) in
  match found with
  | Some d => ret d
  | None =>
      let d := {| domain_name := name; domain_is_remote := true |} in
      modify (set_db (set_domains (insert name d))) ;;; ret d
  end.

(** Modelled from the spec: [create_remote_user] of
    [fittrackee/federation/utils/user.py], which is not part of the sources
    at hand: create a remote actor record bound to the domain, with its user
    account, and persist them.  The result is the new user with its [actor]
    relationship. *)
Definition create_remote_user (remote_domain : Domain) (url : string) : M (User * Actor) :=
  let! n := gets (λ w, next_id (db w)) in
  let user := {| user_id := n; user_actor_id := n; user_admin := false |} in
  let actor := {| actor_id := n; activitypub_id := url; actor_domain := remote_domain;
                  actor_user := user;
                  shared_inbox_url := remote_shared_inbox_url url |} in
  modify (set_db (λ d, set_next_id (S n) (set_actors (insert url actor) d))) ;;;
  ret (user, actor).

(** [AbstractActivity.get_actor] *)
Definition get_actor (cls : ActivityClass) (activity : Activity)
    (create_remote_actor : bool) : M Actor :=
  let! actor := query_actor (JStr (act_actor activity)) in
  match actor with
  | Some actor => ret actor
  | None =>
      if create_remote_actor then
        let! remote_domain := get_or_create_remote_domain_from_url (act_actor activity) in
        let! user := create_remote_user remote_domain (act_actor activity) in
        ret (snd user)
      else
        raise (ActorNotFoundException ("actor not found for " +:+ activity_name cls))
  end.

(** The URL that [get_actors] looks the object actor up with. *)
Definition object_actor_activitypub_id (activity : Activity) : M json :=
  match act_object activity with
  | JStr s => ret (JStr s)
  | obj =>
      if String.eqb (act_type activity) "Undo"
      then subscript obj "object"
      else subscript obj "actor"
  end.

(** [AbstractActivity.get_actors] *)
Definition get_actors (cls : ActivityClass) (activity : Activity)
    (create_remote_actor : bool) : M (Actor * Actor) :=
  let! actor := get_actor cls activity create_remote_actor in
  let! object_actor_activitypub_id := object_actor_activitypub_id activity in
  let! object_actor := query_actor object_actor_activitypub_id in
  match object_actor with
  | None =>
      raise (ActorNotFoundException ("object actor not found for " +:+ activity_name cls))
  | Some object_actor => ret (actor, object_actor)
  end.

(** ** Follow graph *)

Definition follow_state (follower followed : User) (w : World) : option FollowState :=
  follow_requests (db w) !! (user_id follower, user_id followed).

Definition set_follow_state (follower followed : User) (st : option FollowState) : M unit :=
  modify (set_db (set_follow_requests
    (match st with
     | Some s => insert (user_id follower, user_id followed) s
     | None => delete (user_id follower, user_id followed)
     end))).

(** Modelled from the spec: [User.send_follow_request_to] of
    [fittrackee/users/models.py], which is not part of the sources at hand:
    the [request] operation of the follow-graph state machine.  It fails when
    a rejected request exists for the ordered pair, creates a pending
    request when there is none, and keeps an existing pending or accepted
    request (at most one request per ordered pair). *)
Definition send_follow_request_to (self target : User) : M unit :=
  let! existing := gets (follow_state self target) in
  match existing with
  | Some Rejected => raise FollowRequestAlreadyRejectedError
  | Some _ => ret tt
  | None => set_follow_state self target (Some Pending)
  end.

(** Modelled from the spec: [User.approves_follow_request_from] of
    [fittrackee/users/models.py], which is not part of the sources at hand:
    the [approve] operation, [PENDING -> ACCEPTED]. *)
Definition approves_follow_request_from (self user : User) : M unit :=
  let! existing := gets (follow_state user self) in
  match existing with
  | None => raise NotExistingFollowRequestError
  | Some Pending => set_follow_state user self (Some Accepted)
  | Some _ => raise FollowRequestAlreadyProcessedError
  end.

(** Modelled from the spec: [User.rejects_follow_request_from] of
    [fittrackee/users/models.py], which is not part of the sources at hand:
    the [reject] operation, [PENDING -> REJECTED]. *)
Definition rejects_follow_request_from (self user : User) : M unit :=
  let! existing := gets (follow_state user self) in
  match existing with
  | None => raise NotExistingFollowRequestError
  | Some Pending => set_follow_state user self (Some Rejected)
  | Some _ => raise FollowRequestAlreadyProcessedError
  end.

(** Modelled from the spec: [User.undoes_follow] of
    [fittrackee/users/models.py], which is not part of the sources at hand:
    the [undo] operation erases the request of the pair whatever its state
    and fails when there is none. *)
Definition undoes_follow (self user : User) : M unit :=
  let! existing := gets (follow_state user self) in
  match existing with
  | None => raise NotExistingFollowRequestError
  | Some _ => set_follow_state user self None
  end.

(** ** The follow handlers *)

(** [FollowActivity.process_activity] *)
Definition Follow_process_activity (activity : Activity) : M unit :=
  let! (follower_actor, followed_actor) := get_actors FollowActivity activity true in
  try_except
    (send_follow_request_to (actor_user follower_actor) (actor_user followed_actor))
    (λ e, match e with
          | FollowRequestAlreadyRejectedError =>
              appLog_error "Follow activity: follow request already rejected." ;;;
              raise e
          | _ => raise e
          end).

(** The two [except] clauses shared by [AcceptActivity] and
    [RejectActivity], and the first of them used by [UndoActivity]. *)
Definition log_and_reraise (cls : ActivityClass) (processed_clause : bool) (e : exn) : M unit :=
  match e with
  | NotExistingFollowRequestError =>
      appLog_error (activity_name cls +:+ ": follow request does not exist.") ;;;
      raise e
  | FollowRequestAlreadyProcessedError =>
      if processed_clause then
        appLog_error (activity_name cls +:+ ": follow request already processed.") ;;;
        raise e
      else raise e
  | _ => raise e
  end.

(** [AcceptActivity.process_activity] *)
Definition Accept_process_activity (activity : Activity) : M unit :=
  let! (followed_actor, follower_actor) := get_actors AcceptActivity activity false in
  try_except
    (approves_follow_request_from (actor_user followed_actor) (actor_user follower_actor))
    (log_and_reraise AcceptActivity true).

(** [RejectActivity.process_activity] *)
Definition Reject_process_activity (activity : Activity) : M unit :=
  let! (followed_actor, follower_actor) := get_actors RejectActivity activity false in
  try_except
    (rejects_follow_request_from (actor_user followed_actor) (actor_user follower_actor))
    (log_and_reraise RejectActivity true).

(** [UndoActivity.undoes_follow] *)
Definition Undo_undoes_follow (activity : Activity) : M unit :=
  let! (follower_actor, followed_actor) := get_actors UndoActivity activity false in
  try_except
    (undoes_follow (actor_user followed_actor) (actor_user follower_actor))
    (log_and_reraise UndoActivity false).

(** [UndoActivity.process_activity] *)
Definition Undo_process_activity (activity : Activity) : M unit :=
  let! object_type := subscript (act_object activity) "type" in
  if json_eq_str object_type "Follow"
  then Undo_undoes_follow activity
  else ret tt.

(** ** The workout handlers *)

Definition actor_mismatch (cls : ActivityClass) : exn :=
  ActivityException
    (activity_name cls +:+ ": activity actor does not match workout actor.").

(** [DeleteActivity.delete_remote_workout] *)
Definition delete_remote_workout (activity : Activity) (actor : Actor) : M unit :=
  let! workout_ap_id := subscript (act_object activity) "id" in
  let! workout_to_delete := query_workout workout_ap_id in
  match workout_to_delete with
  | None => raise (ObjectNotFoundException "workout" (activity_name DeleteActivity))
  | Some workout_to_delete =>
      if negb (user_actor_id (workout_user workout_to_delete) =? actor_id actor)%nat
      then raise (actor_mismatch DeleteActivity)
      else
        session_delete workout_to_delete ;;;
        session_commit
  end.

(** [DeleteActivity.process_activity] *)
Definition Delete_process_activity (activity : Activity) : M unit :=
  let! actor := get_actor DeleteActivity activity false in
  if str_in "workout" (act_id activity)
  then delete_remote_workout activity actor
  else ret tt.

(** [timedelta(seconds=seconds)] for an integer number of seconds, the
    duration being kept as its seconds.  The constructor normalises its
    argument to days and seconds of the day, and refuses the days that do
    not fit a C [int] or whose magnitude exceeds 999999999. *)
Definition timedelta (seconds : Z) : outcome Z :=
  let days := Z.div seconds 86400 in
  if ((days <? -2147483648) || (2147483647 <? days))%Z
  then Raises (OverflowError "Python int too large to convert to C int")
  else if ((days <? -999999999) || (999999999 <? days))%Z
  then Raises (OverflowError
                 ("days=" +:+ pretty days +:+ "; must have magnitude <= 999999999"))
  else Returns seconds.

(** [UpdateActivity.convert_duration_string_to_timedelta] *)
Definition convert_duration_string_to_timedelta (duration_string : json) : M Z :=
  let! seconds := lift_outcome (convert_duration_string_to_seconds duration_string) in
  lift_outcome (timedelta seconds).

(** The body of the [try] block of [update_remote_workout]: nine attribute
    assignments on the session object, then the commit. *)
Definition assign_and_commit (workout_data : json) (workout_to_update : Workout) : M unit :=
  let! v := subscript workout_data "ave_speed" in
  setattr workout_to_update (with_ave_speed v) ;;;
  let! v := subscript workout_data "distance" in
  setattr workout_to_update (with_distance v) ;;;
  let! v := subscript workout_data "duration" in
  let! v := convert_duration_string_to_timedelta v in
  setattr workout_to_update (with_duration v) ;;;
  let! v := subscript workout_data "max_speed" in
  setattr workout_to_update (with_max_speed v) ;;;
  let! v := subscript workout_data "moving" in
  let! v := convert_duration_string_to_timedelta v in
  setattr workout_to_update (with_moving v) ;;;
  let! v := subscript workout_data "sport_id" in
  setattr workout_to_update (with_sport_id v) ;;;
  let! v := subscript workout_data "title" in
  setattr workout_to_update (with_title v) ;;;
  let! v := subscript workout_data "workout_date" in
  let! v := lift_outcome (strptime_workout_date v) in
  setattr workout_to_update (with_workout_date v) ;;;
  let! v := subscript workout_data "workout_visibility" in
  let! v := lift_outcome (coerce_privacy_level v) in
  setattr workout_to_update (with_workout_visibility v) ;;;
  session_commit.

Definition invalid_workout_activity (cls : ActivityClass) (e : exn) : exn :=
  ActivityException
    (activity_name cls +:+ ": invalid Workout activity (" +:+ exn_class_name e
       +:+ ": " +:+ exn_str e +:+ ").").

(** [UpdateActivity.update_remote_workout] *)
Definition update_remote_workout (activity : Activity) (actor : Actor) : M unit :=
  let workout_data := act_object activity in
  let! workout_ap_id := subscript workout_data "id" in
  let! workout_to_update := query_workout workout_ap_id in
  match workout_to_update with
  | None => raise (ObjectNotFoundException "workout" (activity_name UpdateActivity))
  | Some workout_to_update =>
      if negb (user_actor_id (workout_user workout_to_update) =? actor_id actor)%nat
      then raise (actor_mismatch UpdateActivity)
      else
        try_except
          (assign_and_commit workout_data workout_to_update)
          (λ e, raise (invalid_workout_activity UpdateActivity e))
  end.

(** [UpdateActivity.process_activity] *)
Definition Update_process_activity (activity : Activity) : M unit :=
  let! actor := get_actor UpdateActivity activity false in
  if str_in "workout" (act_id activity)
  then update_remote_workout activity actor
  else ret tt.

End Handlers.

(** ** Visibility policy *)

Module Visibility.

(** Modelled from the spec: the [field] argument of the policy, naming the
    visibility attribute that governs a decision, ['workout_visibility'] or
    ['map_visibility']. *)
Inductive VisibilityField : Type := workout_visibility_field | map_visibility_field.

(** Modelled from the spec: the level held by the selected attribute. *)
Definition getattr_visibility (workout : Workout) (visibility : VisibilityField) : PrivacyLevel :=
  match visibility with
  | workout_visibility_field => workout_visibility workout
  | map_visibility_field => map_visibility workout
  end.

(** Modelled from the spec: the viewer has an accepted follow request
    pointed at the owner. *)
Definition is_accepted_follower (d : Db) (viewer owner : User) : bool :=
  bool_decide (follow_requests d !! (user_id viewer, user_id owner) = Some Accepted).

(** Modelled from the spec: [can_view_workout] of
    [fittrackee/workouts/utils/visibility.py], which is not part of the
    sources at hand (only its tests are).  The owner always sees the
    resource; otherwise the relation is computed from the follow graph and
    the level decides. *)
Definition can_view_workout (d : Db) (workout : Workout) (visibility : VisibilityField)
    (user : option User) : bool * string :=
  let owner := workout_user workout in
  match user with
  | Some u =>
      if (user_id u =? user_id owner)%nat then (true, "owner")
      else
        let status := if is_accepted_follower d u owner then "follower" else "other" in
        match getattr_visibility workout visibility with
        | PRIVATE => (false, status)
        | FOLLOWERS | FOLLOWERS_AND_REMOTE => (String.eqb status "follower", status)
        | PUBLIC => (true, status)
        end
  | None =>
      match getattr_visibility workout visibility with
      | PUBLIC => (true, "other")
      | _ => (false, "other")
      end
  end.

(** Modelled from the spec: [get_workout_user_status], the companion that
    discards the boolean of the evaluation against [workout_visibility]. *)
Definition get_workout_user_status (d : Db) (workout : Workout) (user : option User) : string :=
  snd (can_view_workout d workout workout_visibility_field user).

(** The same account with or without admin rights. *)
Definition with_admin_rights (b : bool) (u : User) : User :=
  {| user_id := user_id u; user_actor_id := user_actor_id u; user_admin := b |}.

(** Modelled from the spec: the owner has blocked the viewer
    ([owner.blocks_user(viewer)] in the tests). *)
Definition is_blocked_by (d : Db) (viewer owner : User) : bool :=
  bool_decide ((user_id owner, user_id viewer) ∈ blocked_users d).

(** Modelled from the spec: [get_workout] of
    [fittrackee/workouts/utils/workouts.py], which is not part of the sources
    at hand (only its tests are): find the workout, refuse a viewer blocked
    by the owner, then apply the visibility policy on
    [workout_visibility]. *)
Definition get_workout (d : Db) (workout_short_id : string) (auth_user : option User)
    : outcome Workout :=
  match List.find (λ r, String.eqb (short_id r) workout_short_id) (workouts d) with
  | None => Raises (PyException "WorkoutException" "workout not found")
  | Some workout =>
      if match auth_user with
         | Some u => is_blocked_by d u (workout_user workout)
         | None => false
         end
      then Raises WorkoutForbiddenException
      else if fst (can_view_workout d workout workout_visibility_field auth_user)
      then Returns workout
      else Raises WorkoutForbiddenException
  end.

End Visibility.

(** ** Outbound fan-out selector *)

Module FanOut.

(** Modelled from the spec: the two outbound representations of a workout,
    the full one and the reduced note ([workout.get_activities()] in the
    tests). *)
Inductive OutboundActivity : Type :=
| workout_activity (workout : Workout)
| note_activity (workout : Workout).

(** Modelled from the spec: one call of the delivery collaborator,
    [send_to_remote_inbox.send(sender_id, activity, recipients)] in the
    tests. *)
Record DeliveryCall : Type := {
  sender_id : nat;
  activity : OutboundActivity;
  recipients : list string;
}.

Section WithCollaborators.
Context `{Collaborators}.

(** Modelled from the spec: the actors with an accepted follow request
    pointed at [owner] whose domain is remote. *)
Definition accepted_remote_follower (d : Db) (owner : User) (a : Actor) : Prop :=
  follow_requests d !! (user_id (actor_user a), user_id owner) = Some Accepted
  ∧ domain_is_remote (actor_domain a) = true.

#[global] Instance accepted_remote_follower_dec d owner a :
  Decision (accepted_remote_follower d owner a).
Proof. unfold accepted_remote_follower. apply _. Defined.

(** Modelled from the spec: the accepted remote followers of [owner], read
    from the actors table. *)
Definition remote_followers (d : Db) (owner : User) : list Actor :=
  (map_to_list (filter (λ kv, accepted_remote_follower d owner kv.2) (actors d))).*2.

(** Modelled from the spec: the shared inboxes of the followers on peer
    instances when [peer] is [true], of the generic followers otherwise,
    without duplicates. *)
Definition shared_inboxes (peer : bool) (followers : list Actor) : list string :=
  remove_dups
    (shared_inbox_url <$>
       filter (λ a, is_fittrackee_instance (actor_domain a) = peer) followers).

(** Modelled from the spec: one delivery call per non-empty recipient set. *)
Definition delivery (workout : Workout) (shape : Workout → OutboundActivity)
    (inboxes : list string) : list DeliveryCall :=
  match inboxes with
  | [] => []
  | _ => [ {| sender_id := user_actor_id (workout_user workout);
              activity := shape workout;
              recipients := inboxes |} ]
  end.

(** Modelled from the spec: the fan-out selector run when a local workout
    is created or updated (in [fittrackee/workouts/workouts.py], which is not
    part of the sources at hand; only its tests are).  The result is the list
    of delivery calls made. *)
Definition select_recipients (d : Db) (workout : Workout) : list DeliveryCall :=
  match workout_visibility workout with
  | PRIVATE | FOLLOWERS => []
  | FOLLOWERS_AND_REMOTE | PUBLIC =>
      let followers := remote_followers d (workout_user workout) in
      delivery workout workout_activity (shared_inboxes true followers)
      ++ delivery workout note_activity (shared_inboxes false followers)
  end.

End WithCollaborators.
End FanOut.

(** ** CreateActivity *)

(** Whether the mantissa of a JSON number literal holds no digit other
    than zero. *)
Fixpoint zero_literal (literal : string) : bool :=
  match literal with
  | EmptyString => true
  | String c rest =>
      if Ascii.eqb c "e" || Ascii.eqb c "E" then true
      else if (Ascii.nat_of_ascii c <? 49)%nat || (57 <? Ascii.nat_of_ascii c)%nat
           then zero_literal rest
           else false
  end.

(** [not v] for a decoded value [v]. *)
Definition py_not (v : json) : bool :=
  match v with
  | JNull => true
  | JBool b => negb b
  | JNum literal => zero_literal literal
  | JStr s => String.eqb s ""
  | JArr items => match items with [] => true | _ => false end
  | JObj fields => match fields with [] => true | _ => false end
  end.

(** What [CreateActivity] imports from outside [federation/activities]: the
    sports table, which no handler writes, the conversion of the wire
    representation and the construction of the workout object. *)
Class WorkoutFactory : Type := {
  (** [Sport.query.filter_by(id=sport_id).first()] finds a sport *)
  sport_exists : json → bool;
  (** [fittrackee.federation.objects.workout.convert_workout_activity] *)
  convert_workout_activity : json → outcome json;
  (** [fittrackee.workouts.utils.workouts.create_workout] *)
  create_workout : User → json → outcome Workout;
}.

Definition with_workout_id (v : nat) (o : Workout) : Workout :=
  {| workout_id := v; short_id := short_id o; ap_id := ap_id o;
     workout_user := workout_user o; sport_id := sport_id o; title := title o;
     ave_speed := ave_speed o; distance := distance o; max_speed := max_speed o;
     duration := duration o; moving := moving o; workout_date := workout_date o;
     workout_visibility := workout_visibility o; map_visibility := map_visibility o |}.

Section Create.
Context `{Collaborators} `{WorkoutFactory}.

(** [AbstractActivity.get_actor] as inherited by a handler class whose
    [activity_name()] is [name]. *)
Definition get_actor_of_class (name : string) (activity : Activity)
    (create_remote_actor : bool) : M Actor :=
  let! actor := query_actor (JStr (act_actor activity)) in
  match actor with
  | Some actor => ret actor
  | None =>
      if create_remote_actor then
        let! remote_domain := get_or_create_remote_domain_from_url (act_actor activity) in
        let! user := create_remote_user remote_domain (act_actor activity) in
        ret (snd user)
      else
        raise (ActorNotFoundException ("actor not found for " +:+ name))
  end.

(** [db.session.add(obj)] followed by [db.session.commit()]: the new object
    is flushed with the rest of the unit of work and gets its primary key
    from the sequence. *)
Definition session_add_commit (obj : Workout) : M unit :=
  λ w, match omap flush_error (session_dirty w ++ [obj])%list with
       | e :: _ => (Raises e, w)
       | [] =>
           (Returns tt,
            {| db := set_next_id (S (next_id (db w)))
                       (set_workouts
                          (λ _, (foldr remove_workout (session_view w) (session_deleted w)
                                 ++ [with_workout_id (next_id (db w)) obj])%list)
                          (db w));
               session_dirty := []; session_deleted := []; app_log := app_log w |})
       end.

(** [CreateActivity.create_remote_workout] *)
Definition create_remote_workout (activity : Activity) (actor : Actor) : M unit :=
  let workout_data := act_object activity in
  let! sport_id := subscript workout_data "sport_id" in
  if py_not sport_id then raise SportNotFoundException
  else if negb (sport_exists sport_id) then raise SportNotFoundException
  else
    let! converted := lift_outcome (convert_workout_activity workout_data) in
    let! new_workout := lift_outcome (create_workout (actor_user actor) converted) in
    session_add_commit new_workout.

(** [CreateActivity.process_activity] *)
Definition Create_process_activity (activity : Activity) : M unit :=
  let! actor := get_actor_of_class "CreateActivity" activity false in
  let! object_type := subscript (act_object activity) "type" in
  if json_eq_str object_type "Workout"
  then create_remote_workout activity actor
  else ret tt.

End Create.

(** A session without pending changes, as at the start of a request. *)
Definition clean_session (w : World) : Prop :=
  session_dirty w = [] ∧ session_deleted w = [].

(** The tables that the workout handlers have no business with. *)
Definition other_tables (d : Db) :=
  (domains d, actors d, follow_requests d, blocked_users d).

(** Computations that leave the tables other than the workouts, and the
    application log, as they found them, whatever their outcome. *)
Definition keeps_other_tables {A} (c : M A) : Prop :=
  ∀ w r w1, c w = (r, w1) →
    other_tables (db w1) = other_tables (db w) ∧ app_log w1 = app_log w.

(** A world whose session holds exactly the dirty objects [objs]. *)
Definition with_session_dirty (objs : list Workout) (w : World) : World :=
  {| db := db w; session_dirty := objs; session_deleted := session_deleted w;
     app_log := app_log w |}.


(** A workout whose nine updatable attributes are overwritten, the others
    being kept. *)
Definition overwrite (workout : Workout) (ave dist : json) (dur : Z) (top : json)
    (mov : Z) (sport name : json) (date : datetime) (level : PrivacyLevel) : Workout :=
  {| workout_id := workout_id workout; short_id := short_id workout;
     ap_id := ap_id workout; workout_user := workout_user workout;
     sport_id := sport; title := name; ave_speed := ave; distance := dist;
     max_speed := top; duration := dur; moving := mov; workout_date := date;
     workout_visibility := level; map_visibility := map_visibility workout |}.


(** ** Reference collaborators and fixtures

    A concrete set of collaborators and the users, actors and workouts of the
    test suites, used to run the handlers on concrete inputs. *)

Module Fixtures.

Fixpoint parse_digits (s : string) (acc : Z) : option Z :=
  match s with
  | EmptyString => Some acc
  | String c rest =>
      let n := Ascii.nat_of_ascii c in
      if ((48 <=? n) && (n <=? 57))%nat
      then parse_digits rest (10 * acc + Z.of_nat (n - 48))%Z
      else None
  end.

Definition parse_number (s : string) : option Z :=
  match s with
  | EmptyString => None
  | _ => parse_digits s 0%Z
  end.

(** [(cur + s).split(sep)] when [cur] holds no separator. *)
Fixpoint split_on (sep : Ascii.ascii) (s cur : string) : list string :=
  match s with
  | EmptyString => [cur]
  | String c rest =>
      if Ascii.eqb c sep then cur :: split_on sep rest EmptyString
      else split_on sep rest (cur +:+ String c EmptyString)
  end.

Definition ValueError (message : string) : exn := PyException "ValueError" message.

Definition parse_duration (v : json) : outcome Z :=
  match v with
  | JStr s =>
      match parse_number <$> split_on ":"%char s EmptyString with
      | [Some h; Some m; Some sec] => Returns (h * 3600 + m * 60 + sec)%Z
      | _ => Raises (ValueError ("invalid duration '" +:+ s +:+ "'"))
      end
  | _ => Raises (PyException "AttributeError" "object has no attribute 'split'")
  end.

(** *** A stand-in for [datetime.strptime(_, '%Y-%m-%d %H:%M')]

    The directives are matched as the regular expression that [_strptime]
    builds from the format does, on ASCII text: [%Y] is four digits, [%m],
    [%d], [%H] and [%M] take two digits when their first alternative
    matches and one otherwise, the blank of the format is a run of white
    space, and text left after the minutes is refused.  The date is then
    checked against the calendar. *)

Definition code_in (lo hi : nat) (c : Ascii.ascii) : bool :=
  ((lo <=? Ascii.nat_of_ascii c) && (Ascii.nat_of_ascii c <=? hi))%nat.

Definition is_digit : Ascii.ascii → bool := code_in 48 57.

Definition digit_value (c : Ascii.ascii) : nat := Ascii.nat_of_ascii c - 48.

(** [\s] on ASCII characters. *)
Definition is_space (c : Ascii.ascii) : bool := code_in 9 13 c || code_in 28 32 c.

(** A directive with two-character alternatives tried before the
    one-character ones. *)
Definition one_or_two (two : Ascii.ascii → Ascii.ascii → option nat)
    (one : Ascii.ascii → option nat) (s : string) : option (nat * string) :=
  match s with
  | EmptyString => None
  | String a rest =>
      match match rest with
            | String b rest' => (λ n, (n, rest')) <$> two a b
            | EmptyString => None
            end with
      | Some found => Some found
      | None => (λ n, (n, rest)) <$> one a
      end
  end.

Definition two_digits (a b : Ascii.ascii) : nat := 10 * digit_value a + digit_value b.

(** [\d\d\d\d] *)
Definition match_Y (s : string) : option (nat * string) :=
  match s with
  | String a (String b (String c (String d rest))) =>
      if is_digit a && is_digit b && is_digit c && is_digit d
      then Some (100 * two_digits a b + two_digits c d, rest)
      else None
  | _ => None
  end.

(** [1[0-2]|0[1-9]|[1-9]] *)
Definition match_m : string → option (nat * string) :=
  one_or_two
    (λ a b, if Ascii.eqb a "1" && code_in 48 50 b || Ascii.eqb a "0" && code_in 49 57 b
            then Some (two_digits a b) else None)
    (λ a, if code_in 49 57 a then Some (digit_value a) else None).

(** [3[0-1]|[1-2]\d|0[1-9]|[1-9]| [1-9]] *)
Definition match_d : string → option (nat * string) :=
  one_or_two
    (λ a b, if Ascii.eqb a "3" && code_in 48 49 b || code_in 49 50 a && is_digit b
               || Ascii.eqb a "0" && code_in 49 57 b
            then Some (two_digits a b)
            else if Ascii.eqb a " " && code_in 49 57 b then Some (digit_value b)
            else None)
    (λ a, if code_in 49 57 a then Some (digit_value a) else None).

(** [2[0-3]|[0-1]\d|\d] *)
Definition match_H : string → option (nat * string) :=
  one_or_two
    (λ a b, if Ascii.eqb a "2" && code_in 48 51 b || code_in 48 49 a && is_digit b
            then Some (two_digits a b) else None)
    (λ a, if is_digit a then Some (digit_value a) else None).

(** [[0-5]\d|\d] *)
Definition match_M : string → option (nat * string) :=
  one_or_two
    (λ a b, if code_in 48 53 a && is_digit b then Some (two_digits a b) else None)
    (λ a, if is_digit a then Some (digit_value a) else None).

Definition match_char (c : Ascii.ascii) (s : string) : option string :=
  match s with
  | String c' rest => if Ascii.eqb c c' then Some rest else None
  | EmptyString => None
  end.

Fixpoint skip_spaces (s : string) : string :=
  match s with
  | String c rest => if is_space c then skip_spaces rest else s
  | EmptyString => s
  end.

(** [\s+] *)
Definition match_spaces (s : string) : option string :=
  match s with
  | String c rest => if is_space c then Some (skip_spaces rest) else None
  | EmptyString => None
  end.

(** The five fields and the text left after them. *)
Definition match_workout_date (s : string) : option (datetime * string) :=
  '(y, s) ← match_Y s;
  s ← match_char "-" s;
  '(m, s) ← match_m s;
  s ← match_char "-" s;
  '(d, s) ← match_d s;
  s ← match_spaces s;
  '(h, s) ← match_H s;
  s ← match_char ":" s;
  '(mi, s) ← match_M s;
  Some ({| dt_year := y; dt_month := m; dt_day := d; dt_hour := h; dt_minute := mi |}, s).

Definition is_leap (year : nat) : bool :=
  ((year mod 4 =? 0) && (negb (year mod 100 =? 0) || (year mod 400 =? 0)))%nat.

Definition days_in_month (year month : nat) : nat :=
  match month with
  | 2 => if is_leap year then 29 else 28
  | 4 | 6 | 9 | 11 => 30
  | _ => 31
  end.

Definition hex_digit (n : nat) : Ascii.ascii :=
  Ascii.ascii_of_nat (if (n <? 10)%nat then 48 + n else 87 + n).

Definition double_quote : Ascii.ascii := Ascii.ascii_of_nat 34.

Fixpoint repr_body (quote : Ascii.ascii) (s : string) : string :=
  match s with
  | EmptyString => EmptyString
  | String c rest =>
      let n := Ascii.nat_of_ascii c in
      (if Ascii.eqb c quote || Ascii.eqb c "\" then String "\" (String c EmptyString)
       else if (n =? 9)%nat then "\t"
       else if (n =? 10)%nat then "\n"
       else if (n =? 13)%nat then "\r"
       else if (n <? 32)%nat || (n =? 127)%nat
            then String "\" (String "x" (String (hex_digit (n / 16))
                                           (String (hex_digit (n mod 16)) EmptyString)))
       else String c EmptyString)
      +:+ repr_body quote rest
  end.

Fixpoint holds (c : Ascii.ascii) (s : string) : bool :=
  match s with
  | EmptyString => false
  | String c' rest => Ascii.eqb c c' || holds c rest
  end.

(** [repr(s)] for ASCII text: double quotes are chosen when the text holds
    a single quote and no double quote. *)
Definition repr (s : string) : string :=
  let quote := if holds "'" s && negb (holds double_quote s) then double_quote else "'"%char in
  String quote (repr_body quote s) +:+ String quote EmptyString.

(** The name that the [TypeError] of [strptime] gives to the type of a
    value that is not a string. *)
Definition strptime_type_name (v : json) : string :=
  match v with
  | JNull => "None"
  | JBool _ => "bool"
  | JNum literal => if int_literal literal then "int" else "float"
  | JStr _ => "str"
  | JArr _ => "list"
  | JObj _ => "dict"
  end.

Definition parse_workout_date (v : json) : outcome datetime :=
  match v with
  | JStr s =>
      match match_workout_date s with
      | None =>
          Raises (ValueError ("time data " +:+ repr s
                              +:+ " does not match format '%Y-%m-%d %H:%M'"))
      | Some (date, EmptyString) =>
          if (dt_year date =? 0)%nat then Raises (ValueError "year 0 is out of range")
          else if (days_in_month (dt_year date) (dt_month date) <? dt_day date)%nat
          then Raises (ValueError "day is out of range for month")
          else Returns date
      | Some (_, rest) => Raises (ValueError ("unconverted data remains: " +:+ rest))
      end
  | _ =>
      Raises (PyException "TypeError"
                ("strptime() argument 1 must be str, not " +:+ strptime_type_name v))
  end.

Definition parse_privacy_level (v : json) : outcome PrivacyLevel :=
  if json_eq_str v "private" then Returns PRIVATE
  else if json_eq_str v "followers_only" then Returns FOLLOWERS
  else if json_eq_str v "followers_and_remote_only" then Returns FOLLOWERS_AND_REMOTE
  else if json_eq_str v "public" then Returns PUBLIC
  else Raises (PyException "LookupError" "not among the defined enum values").

(** The host of [scheme://host/path]. *)
Definition hostname (url : string) : string :=
  match split_on "/"%char url EmptyString with
  | _ :: _ :: host :: _ => host
  | _ => url
  end.

#[export] Instance reference_collaborators : Collaborators := {|
  url_hostname := hostname;
  remote_shared_inbox_url := λ url, "https://" +:+ hostname url +:+ "/federation/inbox";
  convert_duration_string_to_seconds := parse_duration;
  strptime_workout_date := parse_workout_date;
  coerce_privacy_level := parse_privacy_level;
  flush_error := λ _, None;
  is_fittrackee_instance := λ d, String.eqb (domain_name d) "remote.fittrackee.example";
|}.

Definition local_domain : Domain :=
  {| domain_name := "example.com"; domain_is_remote := false |}.
Definition remote_domain : Domain :=
  {| domain_name := "remote.fittrackee.example"; domain_is_remote := true |}.
Definition remote_domain_2 : Domain :=
  {| domain_name := "social.example.org"; domain_is_remote := true |}.

Definition user_1 : User := {| user_id := 1; user_actor_id := 11; user_admin := false |}.
Definition user_2 : User := {| user_id := 2; user_actor_id := 12; user_admin := false |}.
Definition user_2_admin : User := {| user_id := 2; user_actor_id := 12; user_admin := true |}.
Definition remote_user : User := {| user_id := 3; user_actor_id := 13; user_admin := false |}.
Definition remote_user_2 : User := {| user_id := 4; user_actor_id := 14; user_admin := false |}.

Definition make_actor (u : User) (d : Domain) (name : string) : Actor :=
  {| actor_id := user_actor_id u;
     activitypub_id := "https://" +:+ domain_name d +:+ "/federation/user/" +:+ name;
     actor_domain := d; actor_user := u;
     shared_inbox_url := "https://" +:+ domain_name d +:+ "/federation/inbox" |}.

Definition actor_1 : Actor := make_actor user_1 local_domain "test".
Definition actor_2 : Actor := make_actor user_2 local_domain "toto".
Definition remote_actor : Actor := make_actor remote_user remote_domain "sam".
Definition remote_actor_2 : Actor := make_actor remote_user_2 remote_domain_2 "john".

Definition make_workout (pk : nat) (sid : string) (ap : option string) (owner : User)
    (level : PrivacyLevel) : Workout :=
  {| workout_id := pk; short_id := sid; ap_id := ap; workout_user := owner;
     sport_id := JNum "1"; title := JStr "Cycling"; ave_speed := JNum "10.0";
     distance := JNum "10.0"; max_speed := JNum "10.0"; duration := 3600;
     moving := 3600;
     workout_date := {| dt_year := 2018; dt_month := 1; dt_day := 1;
                        dt_hour := 0; dt_minute := 0 |};
     workout_visibility := level; map_visibility := level |}.

Definition workout_cycling_user_1 (level : PrivacyLevel) : Workout :=
  make_workout 1 "kjxavSTUrJvoAh2wvCeGEF" None user_1 level.

Definition remote_workout_ap_id : string :=
  "https://remote.fittrackee.example/federation/user/sam/workouts/1".

Definition remote_cycling_workout : Workout :=
  make_workout 2 "mFVAiHTWCxSXSUWnXYM5HP" (Some remote_workout_ap_id) remote_user
    FOLLOWERS_AND_REMOTE.

Definition table_of_actors (l : list Actor) : gmap string Actor :=
  list_to_map ((λ a, (activitypub_id a, a)) <$> l).

Definition make_db (known : list Actor) (requests : list (nat * nat * FollowState))
    (blocks : list (nat * nat)) (rows : list Workout) : Db :=
  {| domains := list_to_map ((λ a, (domain_name (actor_domain a), actor_domain a)) <$> known);
     actors := table_of_actors known;
     follow_requests := list_to_map requests;
     blocked_users := list_to_set blocks;
     workouts := rows;
     next_id := 100 |}.

Definition make_world (d : Db) : World :=
  {| db := d; session_dirty := []; session_deleted := []; app_log := [] |}.

(** A world where the three actors are known and the remote actor follows
    [user_1]. *)
Definition known_world : World :=
  make_world (make_db [actor_1; actor_2; remote_actor] [(3, 1, Accepted)] [] []).

(** An [Undo] wrapping the [Follow] sent by the remote actor. *)
Definition undo_follow : Activity :=
  {| act_id := "https://remote.fittrackee.example/federation/user/sam#undoes/1";
     act_type := "Undo";
     act_actor := activitypub_id remote_actor;
     act_object := JObj [("type", JStr "Follow");
                         ("actor", JStr (activitypub_id remote_actor));
                         ("object", JStr (activitypub_id actor_1))] |}.

(** A world where only the local actors are known. *)
Definition local_world : World := make_world (make_db [actor_1; actor_2] [] [] []).

(** A world where [user_1] rejected the request of the remote actor. *)
Definition rejected_world : World :=
  make_world (make_db [actor_1; actor_2; remote_actor] [(3, 1, Rejected)] [] []).

(** The [Follow] sent by the remote actor to [actor_1]. *)
Definition follow_activity : Activity :=
  {| act_id := "https://remote.fittrackee.example/federation/user/sam#follows/test";
     act_type := "Follow";
     act_actor := activitypub_id remote_actor;
     act_object := JStr (activitypub_id actor_1) |}.

(** A world where [user_1] asked to follow the remote actor. *)
Definition pending_world : World :=
  make_world (make_db [actor_1; actor_2; remote_actor] [(1, 3, Pending)] [] []).

(** The same world once the remote actor accepted. *)
Definition accepted_world : World :=
  make_world (make_db [actor_1; actor_2; remote_actor] [(1, 3, Accepted)] [] []).

(** The [Accept] sent by the remote actor for the [Follow] of [actor_1]. *)
Definition accept_activity : Activity :=
  {| act_id := "https://remote.fittrackee.example/federation/user/sam#accepts/follow/test";
     act_type := "Accept";
     act_actor := activitypub_id remote_actor;
     act_object := JObj [("type", JStr "Follow");
                         ("actor", JStr (activitypub_id actor_1));
                         ("object", JStr (activitypub_id remote_actor))] |}.

(** A world holding the workout of the remote user, with both remote actors
    known. *)
Definition federated_world : World :=
  make_world (make_db [actor_1; remote_actor; remote_actor_2] [(1, 3, Accepted)] []
                [remote_cycling_workout]).

Definition workout_payload (date : string) : json :=
  JObj [("id", JStr remote_workout_ap_id); ("type", JStr "Workout");
        ("ave_speed", JNum "12.0"); ("distance", JNum "12.0");
        ("duration", JStr "1:00:00"); ("max_speed", JNum "15.0");
        ("moving", JStr "0:59:30"); ("sport_id", JNum "1");
        ("title", JStr "Evening ride"); ("workout_date", JStr date);
        ("workout_visibility", JStr "public")].

(** An [Update] of the remote workout sent by [sender]. *)
Definition update_activity (sender : Actor) (date : string) : Activity :=
  {| act_id := remote_workout_ap_id +:+ "/update";
     act_type := "Update";
     act_actor := activitypub_id sender;
     act_object := workout_payload date |}.

(** A [Delete] of the remote workout sent by [sender]. *)
Definition delete_activity (sender : Actor) : Activity :=
  {| act_id := remote_workout_ap_id +:+ "/delete";
     act_type := "Delete";
     act_actor := activitypub_id sender;
     act_object := JObj [("id", JStr remote_workout_ap_id); ("type", JStr "Workout")] |}.

(** A [Delete] of the remote actor itself: its [id] names no workout. *)
Definition delete_actor_activity : Activity :=
  {| act_id := "https://remote.fittrackee.example/federation/user/sam#delete";
     act_type := "Delete";
     act_actor := activitypub_id remote_actor;
     act_object := JStr (activitypub_id remote_actor) |}.

Definition workout_cycling_user_2 (level : PrivacyLevel) : Workout :=
  make_workout 3 "dUAgh2VbAbzEiZodFgMQtq" None user_2 level.

(** Tables where [user_1] follows [user_2] ([follows] tells whether the
    request was approved) and [user_2] owns a workout. *)
Definition db_user_1_to_user_2 (follows : bool) (workout_level map_level : PrivacyLevel)
    : Db :=
  make_db [actor_1; actor_2] (if follows then [(1, 2, Accepted)] else [(1, 2, Pending)])
    [] [with_workout_visibility workout_level (workout_cycling_user_2 map_level)].

(** Tables where [user_1] owns a workout, [user_2] possibly follows
    [user_1] and [user_1] possibly blocks [user_2]. *)
Definition db_user_2_to_user_1 (follows blocks : bool) (level : PrivacyLevel) : Db :=
  make_db [actor_1; actor_2] (if follows then [(2, 1, Accepted)] else [])
    (if blocks then [(1, 2)] else []) [workout_cycling_user_1 level].

(** The six viewers of the [get_workout] test classes at one level: absent,
    not a follower, a follower, the owner, blocked by the owner, an admin. *)
Definition get_workout_cases (level : PrivacyLevel) : list (outcome Workout) :=
  let sid := short_id (workout_cycling_user_1 level) in
  [ Visibility.get_workout (db_user_2_to_user_1 false false level) sid None;
    Visibility.get_workout (db_user_2_to_user_1 false false level) sid (Some user_2);
    Visibility.get_workout (db_user_2_to_user_1 true false level) sid (Some user_2);
    Visibility.get_workout (db_user_2_to_user_1 false false level) sid (Some user_1);
    Visibility.get_workout (db_user_2_to_user_1 false true level) sid (Some user_2);
    Visibility.get_workout (db_user_2_to_user_1 false false level) sid (Some user_2_admin) ].

(** Tables of the fan-out tests: the four actors are known and [followers]
    are the requests pointed at [user_1]. *)
Definition fan_out_db (followers : list (nat * nat * FollowState)) : Db :=
  make_db [actor_1; actor_2; remote_actor; remote_actor_2] followers [] [].

(** The fields of a payload that is a dict. *)
Definition payload_fields (payload : json) : list (string * json) :=
  match payload with
  | JObj fields => fields
  | _ => []
  end.

(** A reference factory for [CreateActivity]: the sports table holds the
    sports 1 and 2, the conversion wants a workout date in the payload and
    the construction names the new workout after the [id] of the payload. *)
#[export] Instance reference_factory : WorkoutFactory := {|
  sport_exists := λ v,
    match v with
    | JNum literal => String.eqb literal "1" || String.eqb literal "2"
    | _ => false
    end;
  convert_workout_activity := λ v,
    match dict_get "workout_date" (payload_fields v) with
    | Some _ => Returns v
    | None => Raises (KeyError "workout_date")
    end;
  create_workout := λ u v,
    match dict_get "id" (payload_fields v) with
    | Some (JStr ap) =>
        Returns (make_workout 0 "oQqXt9GcYEDcsTYyFAsUsQ" (Some ap) u PUBLIC)
    | _ => Raises (KeyError "id")
    end;
|}.

(** A payload where [key] is given the value [v], and one without [key]. *)
Definition payload_with (key : string) (v : json) (payload : json) : json :=
  match payload with
  | JObj fields => JObj ((key, v) :: fields)
  | _ => payload
  end.

Definition payload_without (key : string) (payload : json) : json :=
  match payload with
  | JObj fields => JObj (filter (λ field, field.1 ≠ key) fields)
  | _ => payload
  end.

(** A [Create] sent by [sender] for [payload]. *)
Definition create_activity (sender : Actor) (payload : json) : Activity :=
  {| act_id := remote_workout_ap_id +:+ "/activity";
     act_type := "Create";
     act_actor := activitypub_id sender;
     act_object := payload |}.

(** An [Update] sent by [sender] for [payload]. *)
Definition update_with (sender : Actor) (payload : json) : Activity :=
  {| act_id := remote_workout_ap_id +:+ "/update";
     act_type := "Update";
     act_actor := activitypub_id sender;
     act_object := payload |}.

(** An [Accept] whose wrapped [Follow] names no actor, and one whose object
    is a list. *)
Definition accept_without_actor : Activity :=
  {| act_id := "https://remote.fittrackee.example/federation/user/sam#accepts/follow/test";
     act_type := "Accept";
     act_actor := activitypub_id remote_actor;
     act_object := JObj [("type", JStr "Follow");
                         ("object", JStr (activitypub_id remote_actor))] |}.

Definition accept_of_list : Activity :=
  {| act_id := "https://remote.fittrackee.example/federation/user/sam#accepts/follow/test";
     act_type := "Accept";
     act_actor := activitypub_id remote_actor;
     act_object := JArr [JStr (activitypub_id actor_1)] |}.

(** A [Follow] that the remote actor sends to itself. *)
Definition follow_self : Activity :=
  {| act_id := "https://remote.fittrackee.example/federation/user/sam#follows/sam";
     act_type := "Follow";
     act_actor := activitypub_id remote_actor;
     act_object := JStr (activitypub_id remote_actor) |}.

(** A [Follow] sent by the remote actor to an actor that does not exist. *)
Definition follow_nobody : Activity :=
  {| act_id := "https://remote.fittrackee.example/federation/user/sam#follows/nobody";
     act_type := "Follow";
     act_actor := activitypub_id remote_actor;
     act_object := JStr "https://example.com/federation/user/nobody" |}.

(** A [Delete] of a remote actor, sent by the remote actor, whose [id]
    happens to contain ["workout"]; its object is the URL of the actor. *)
Definition delete_workout_fan : Activity :=
  {| act_id := "https://remote.fittrackee.example/federation/user/workout_fan#delete";
     act_type := "Delete";
     act_actor := activitypub_id remote_actor;
     act_object := JStr "https://remote.fittrackee.example/federation/user/workout_fan" |}.

(** A [Delete] whose object names no workout. *)
Definition delete_without_id : Activity :=
  {| act_id := remote_workout_ap_id +:+ "/delete";
     act_type := "Delete";
     act_actor := activitypub_id remote_actor;
     act_object := JObj [("type", JStr "Workout")] |}.

End Fixtures.

(** * Properties *)

(** ** Running the monad *)

Ltac unfold_monad :=
  unfold bind, ret, raise, gets, modify, try_except, lift_outcome, appLog_error in *.

Ltac run := unfold_monad; simpl in *.

Lemma bind_returns {A B} (c : M A) (k : A → M B) w a w1 :
  c w = (Returns a, w1) → bind c k w = k a w1.
Proof. intros Hc. unfold bind. by rewrite Hc. Qed.

Lemma bind_raises {A B} (c : M A) (k : A → M B) w e w1 :
  c w = (Raises e, w1) → bind c k w = (Raises e, w1).
Proof. intros Hc. unfold bind. by rewrite Hc. Qed.

Lemma try_except_raises {A} (c : M A) h w e w1 :
  c w = (Raises e, w1) → try_except c h w = h e w1.
Proof. intros Hc. unfold try_except. by rewrite Hc. Qed.

(** ** Actor resolution *)

Section ActorResolution.
Context `{Collaborators}.

Lemma get_actor_known cls activity create w a :
  actors (db w) !! act_actor activity = Some a →
  get_actor cls activity create w = (Returns a, w).
Proof. intros Ha. unfold get_actor, query_actor. run. by rewrite Ha. Qed.

Lemma get_actor_unknown cls activity w :
  actors (db w) !! act_actor activity = None →
  get_actor cls activity false w
  = (Raises (ActorNotFoundException ("actor not found for " +:+ activity_name cls)), w).
Proof. intros Ha. unfold get_actor, query_actor. run. by rewrite Ha. Qed.

(** Without [create_remote_actor] the resolution of the acting actor never
    changes the world. *)
Lemma get_actor_no_create_world cls activity w r w1 :
  get_actor cls activity false w = (r, w1) → w1 = w.
Proof.
  unfold get_actor, query_actor. run.
  destruct (actors (db w) !! act_actor activity); by inversion 1.
Qed.

(** With [create_remote_actor] the resolution always returns an actor, and
    only the entry of the acting actor's URL may be new in the actors. *)
Lemma get_actor_create_returns cls activity w :
  ∃ a w1, get_actor cls activity true w = (Returns a, w1)
          ∧ actors (db w1) !! act_actor activity = Some a
          ∧ (∀ url, url ≠ act_actor activity →
               actors (db w1) !! url = actors (db w) !! url)
          ∧ follow_requests (db w1) = follow_requests (db w)
          ∧ workouts (db w1) = workouts (db w)
          ∧ app_log w1 = app_log w.
Proof.
  unfold get_actor, query_actor, get_or_create_remote_domain_from_url, create_remote_user.
  run.
  destruct (actors (db w) !! act_actor activity) as [a|] eqn:Ha.
  - exists a, w. by rewrite Ha.
  - destruct (domains (db w) !! url_hostname (act_actor activity)) as [d|] eqn:Hd;
      simpl; eexists _, _; (split; [reflexivity|]); simpl;
      rewrite lookup_insert_eq; repeat split; try done;
      intros url Hne; by rewrite lookup_insert_ne.
Qed.

(** The resolution of the acting actor with [create_remote_actor]: a known
    actor is returned and nothing changes; an unknown one is created under
    its URL, with its domain, and nothing else changes among the actors, the
    follow requests and the log. *)
Lemma get_actor_create_spec cls activity w :
  ∃ a w1, get_actor cls activity true w = (Returns a, w1)
          ∧ actors (db w1) !! act_actor activity = Some a
          ∧ match actors (db w) !! act_actor activity with
            | Some known => a = known ∧ w1 = w
            | None =>
                activitypub_id a = act_actor activity
                ∧ domains (db w1) !! url_hostname (act_actor activity)
                  = Some (actor_domain a)
            end
          ∧ (∀ url, url ≠ act_actor activity →
               actors (db w1) !! url = actors (db w) !! url)
          ∧ follow_requests (db w1) = follow_requests (db w)
          ∧ app_log w1 = app_log w.
Proof.
  unfold get_actor, query_actor, get_or_create_remote_domain_from_url, create_remote_user.
  run.
  destruct (actors (db w) !! act_actor activity) as [a|] eqn:Ha.
  - exists a, w. by rewrite Ha.
  - destruct (domains (db w) !! url_hostname (act_actor activity)) as [d|] eqn:Hd;
      simpl; eexists _, _; (split; [reflexivity|]); simpl;
      rewrite ?lookup_insert_eq; repeat split; try done;
      intros url Hne; by rewrite lookup_insert_ne.
Qed.

End ActorResolution.

(** ** Object-actor resolution *)

Section ObjectActor.
Context `{Collaborators}.

Lemma get_actors_lookup cls activity create w actor w1 key :
  get_actor cls activity create w = (Returns actor, w1) →
  object_actor_activitypub_id activity w1 = (Returns key, w1) →
  get_actors cls activity create w
  = match (match key with JStr url => actors (db w1) !! url | _ => None end) with
    | Some object_actor => (Returns (actor, object_actor), w1)
    | None =>
        (Raises (ActorNotFoundException
                   ("object actor not found for " +:+ activity_name cls)), w1)
    end.
Proof.
  intros Hactor Hkey. unfold get_actors.
  rewrite (bind_returns _ _ _ _ _ Hactor), (bind_returns _ _ _ _ _ Hkey).
  unfold query_actor. run. by destruct key; try destruct (actors (db w1) !! s).
Qed.

Lemma object_actor_activitypub_id_string activity url w :
  act_object activity = JStr url →
  object_actor_activitypub_id activity w = (Returns (JStr url), w).
Proof. intros Hobj. unfold object_actor_activitypub_id. by rewrite Hobj. Qed.

Lemma object_actor_activitypub_id_actor activity fields v w :
  act_object activity = JObj fields → act_type activity ≠ "Undo" →
  dict_get "actor" fields = Some v →
  object_actor_activitypub_id activity w = (Returns v, w).
Proof.
  intros Hobj Htype Hget. unfold object_actor_activitypub_id. rewrite Hobj.
  apply String.eqb_neq in Htype. rewrite Htype. unfold subscript. by rewrite Hget.
Qed.

Lemma object_actor_activitypub_id_object activity fields v w :
  act_object activity = JObj fields → act_type activity = "Undo" →
  dict_get "object" fields = Some v →
  object_actor_activitypub_id activity w = (Returns v, w).
Proof.
  intros Hobj Htype Hget. unfold object_actor_activitypub_id. rewrite Hobj, Htype.
  simpl. unfold subscript. by rewrite Hget.
Qed.

Lemma get_actor_other_actors cls activity create w r w1 url :
  get_actor cls activity create w = (r, w1) →
  url ≠ act_actor activity →
  actors (db w1) !! url = actors (db w) !! url.
Proof.
  intros Hrun Hne. destruct create.
  - destruct (get_actor_create_returns cls activity w) as (a & w' & Hw' & _ & Hother & _).
    rewrite Hw' in Hrun. inversion Hrun; subst. by apply Hother.
  - by rewrite (get_actor_no_create_world _ _ _ _ _ Hrun).
Qed.

(** C8.  Object-actor resolution of [get_actors]: once the acting actor is
    resolved, the URL of the object actor is the [object] itself when it is
    a plain string, [object.object] when the activity type is [Undo] and
    [object.actor] otherwise; the actor is looked up by [activitypub_id]
    and never created: when no actor has that id the resolution raises
    [ActorNotFoundException], and the world is the one left by the
    resolution of the acting actor, whose only possible new actor is the
    acting actor itself. *)
Theorem get_actors_object_actor cls activity create w actor w1 :
  get_actor cls activity create w = (Returns actor, w1) →
  let resolved (url : string) :=
    match actors (db w1) !! url with
    | Some object_actor => (Returns (actor, object_actor), w1)
    | None =>
        (Raises (ActorNotFoundException
                   ("object actor not found for " +:+ activity_name cls)), w1)
    end in
  (∀ url, act_object activity = JStr url →
     get_actors cls activity create w = resolved url)
  ∧ (∀ fields url, act_object activity = JObj fields →
       act_type activity = "Undo" → dict_get "object" fields = Some (JStr url) →
       get_actors cls activity create w = resolved url)
  ∧ (∀ fields url, act_object activity = JObj fields →
       act_type activity ≠ "Undo" → dict_get "actor" fields = Some (JStr url) →
       get_actors cls activity create w = resolved url)
  ∧ (∀ url, url ≠ act_actor activity →
       actors (db w1) !! url = actors (db w) !! url).
Proof.
  intros Hactor resolved. repeat split.
  - intros url Hobj.
    rewrite (get_actors_lookup _ _ _ _ _ _ (JStr url) Hactor); [done|].
    unfold object_actor_activitypub_id. by rewrite Hobj.
  - intros fields url Hobj Htype Hget.
    rewrite (get_actors_lookup _ _ _ _ _ _ (JStr url) Hactor); [done|].
    unfold object_actor_activitypub_id. rewrite Hobj, Htype. simpl.
    unfold subscript. by rewrite Hget.
  - intros fields url Hobj Htype Hget.
    rewrite (get_actors_lookup _ _ _ _ _ _ (JStr url) Hactor); [done|].
    unfold object_actor_activitypub_id. rewrite Hobj.
    apply String.eqb_neq in Htype. rewrite Htype.
    unfold subscript. by rewrite Hget.
  - intros url Hne. by eapply get_actor_other_actors.
Qed.
End ObjectActor.


(** ** The follow handlers *)

Section FollowHandlers.
Context `{Collaborators}.

(** C6 (amended).  [FollowActivity], for an envelope whose object actor is
    [url]: the [object] itself when it is a plain string, else
    [object.actor].  The follower is resolved first, from [actor]: a known
    one is returned as it is, an unknown one is created under that URL
    together with its domain, and no other actor is created.  The object
    actor is then looked up, never created: when [url] names no actor at
    that point the handler raises [ActorNotFoundException]; this is the case
    of every unknown [url] other than the follower's own URL, which has just
    been created.  Otherwise a follow request from the follower's user to
    the object actor's user is submitted: a rejected request of that ordered
    pair makes the handler log and re-raise
    [FollowRequestAlreadyRejectedError] with the follow graph untouched, a
    pending or accepted one is kept, and without one a pending request is
    created. *)
Theorem Follow_process_activity_spec activity w url :
  act_object activity = JStr url
  ∨ (∃ fields, act_object activity = JObj fields ∧ act_type activity ≠ "Undo"
               ∧ dict_get "actor" fields = Some (JStr url)) →
  ∃ follower w1,
    get_actor FollowActivity activity true w = (Returns follower, w1)
    ∧ actors (db w1) !! act_actor activity = Some follower
    ∧ match actors (db w) !! act_actor activity with
      | Some known => follower = known ∧ w1 = w
      | None =>
          activitypub_id follower = act_actor activity
          ∧ domains (db w1) !! url_hostname (act_actor activity)
            = Some (actor_domain follower)
      end
    ∧ (∀ other, other ≠ act_actor activity →
         actors (db w1) !! other = actors (db w) !! other)
    ∧ follow_requests (db w1) = follow_requests (db w)
    ∧ match actors (db w1) !! url with
      | None =>
          Follow_process_activity activity w
          = (Raises (ActorNotFoundException "object actor not found for FollowActivity"),
             w1)
      | Some followed =>
          let pair := (user_id (actor_user follower), user_id (actor_user followed)) in
          match follow_requests (db w) !! pair with
          | Some Rejected =>
              Follow_process_activity activity w
              = (Raises FollowRequestAlreadyRejectedError,
                 logged "Follow activity: follow request already rejected." w1)
          | Some _ => Follow_process_activity activity w = (Returns tt, w1)
          | None =>
              Follow_process_activity activity w
              = (Returns tt, set_db (set_follow_requests (insert pair Pending)) w1)
          end
      end.
Proof.
  intros Hobject.
  destruct (get_actor_create_spec FollowActivity activity w)
    as (follower & w1 & Hactor & Hstored & Hcreated & Hothers & Hrequests & _).
  exists follower, w1. do 5 (split; [done|]).
  assert (Hkey : object_actor_activitypub_id activity w1 = (Returns (JStr url), w1)).
  { destruct Hobject as [Hobj|(fields & Hobj & Htype & Hget)].
    - by apply object_actor_activitypub_id_string.
    - by eapply object_actor_activitypub_id_actor. }
  pose proof (get_actors_lookup _ _ _ _ _ _ _ Hactor Hkey) as Hactors. simpl in Hactors.
  unfold Follow_process_activity.
  destruct (actors (db w1) !! url) as [followed|].
  - rewrite (bind_returns _ _ _ _ _ Hactors), <- Hrequests.
    unfold send_follow_request_to, follow_state, set_follow_state. run.
    by destruct (follow_requests (db w1) !! _) as [[]|].
  - by rewrite (bind_raises _ _ _ _ _ Hactors).
Qed.

End FollowHandlers.

Section AcceptReject.
Context `{Collaborators}.

(** C7.  [AcceptActivity] and [RejectActivity]: the followed actor is
    resolved from the envelope's [actor] and the follower from its [object]
    (the [object] itself when it is a plain string, else [object.actor]),
    neither being created: an unknown one raises [ActorNotFoundException]
    and leaves the world untouched.  Without a request of the pair
    (follower, followed) the handler logs and re-raises
    [NotExistingFollowRequestError], with an accepted or rejected one it logs
    and re-raises [FollowRequestAlreadyProcessedError], and a pending one is
    decided.  After [request] then [approve], or [request] then [reject], a
    further [approve] raises [FollowRequestAlreadyProcessedError]. *)
Theorem Accept_Reject_process_activity_spec (accept : bool) activity w :
  let cls := if accept then AcceptActivity else RejectActivity in
  let process := if accept then Accept_process_activity else Reject_process_activity in
  let decided := if accept then Accepted else Rejected in
  let follower_is (url : string) :=
    act_object activity = JStr url
    ∨ (∃ fields, act_object activity = JObj fields ∧ act_type activity ≠ "Undo"
                 ∧ dict_get "actor" fields = Some (JStr url)) in
  (actors (db w) !! act_actor activity = None →
   process activity w
   = (Raises (ActorNotFoundException ("actor not found for " +:+ activity_name cls)), w))
  ∧ (∀ followed url,
       actors (db w) !! act_actor activity = Some followed →
       follower_is url →
       actors (db w) !! url = None →
       process activity w
       = (Raises (ActorNotFoundException
                    ("object actor not found for " +:+ activity_name cls)), w))
  ∧ (∀ followed follower url,
       actors (db w) !! act_actor activity = Some followed →
       follower_is url →
       actors (db w) !! url = Some follower →
       let pair := (user_id (actor_user follower), user_id (actor_user followed)) in
       match follow_requests (db w) !! pair with
       | None =>
           process activity w
           = (Raises NotExistingFollowRequestError,
              logged (activity_name cls +:+ ": follow request does not exist.") w)
       | Some Pending =>
           process activity w
           = (Returns tt, set_db (set_follow_requests (insert pair decided)) w)
       | Some _ =>
           process activity w
           = (Raises FollowRequestAlreadyProcessedError,
              logged (activity_name cls +:+ ": follow request already processed.") w)
       end)
  ∧ (∀ follower followed : User,
       follow_state follower followed w = None →
       ∃ w2,
         (send_follow_request_to follower followed ;;;
          (if accept then approves_follow_request_from else rejects_follow_request_from)
            followed follower) w = (Returns tt, w2)
         ∧ approves_follow_request_from followed follower w2
           = (Raises FollowRequestAlreadyProcessedError, w2)).
Proof.
  intros cls process decided follower_is.
  assert (Hselected : ∀ url, follower_is url →
            object_actor_activitypub_id activity w = (Returns (JStr url), w)).
  { intros url [Hobj|(fields & Hobj & Htype & Hget)].
    - by apply object_actor_activitypub_id_string.
    - by eapply object_actor_activitypub_id_actor. }
  clearbody follower_is.
  destruct accept; subst cls process decided;
    unfold Accept_process_activity, Reject_process_activity.
  all: split; [|split; [|split]].
  all: try (intros Hnone; erewrite bind_raises; [reflexivity|];
            unfold get_actors; erewrite bind_raises; [reflexivity|];
            by apply get_actor_unknown).
  all: try (intros followed url Hfollowed Hurl Hnone;
            erewrite bind_raises; [reflexivity|];
            rewrite (get_actors_lookup _ _ _ _ _ _ _
                       (get_actor_known _ activity false w followed Hfollowed)
                       (Hselected url Hurl));
            by rewrite Hnone).
  all: try (intros followed follower url Hfollowed Hurl Hfollower;
            set (pair := (user_id (actor_user follower), user_id (actor_user followed)));
            erewrite bind_returns;
            [|rewrite (get_actors_lookup _ _ _ _ _ _ _
                         (get_actor_known _ activity false w followed Hfollowed)
                         (Hselected url Hurl));
              by rewrite Hfollower];
            unfold approves_follow_request_from, rejects_follow_request_from,
              follow_state, set_follow_state, log_and_reraise;
            run; fold pair;
            by destruct (follow_requests (db w) !! pair) as [[]|]).
  all: intros follower followed Hnone;
    unfold send_follow_request_to, approves_follow_request_from,
      rejects_follow_request_from, follow_state, set_follow_state in *;
    run; rewrite Hnone; simpl; rewrite lookup_insert_eq; simpl;
    eexists; (split; [reflexivity|]); simpl; by rewrite lookup_insert_eq.
Qed.

End AcceptReject.

Section Undo.
Context `{Collaborators}.

(** C5 (amended).  [UndoActivity]: when the wrapped object's [type] is not
    ["Follow"] the handler returns without any effect.  When it is, the
    follower is resolved from the envelope's [actor] and the followed actor
    from [object.object], without creating any: an unknown follower or an
    unknown followed actor raises [ActorNotFoundException] and leaves the
    world untouched.  Once both are resolved the request of the pair
    (follower, followed) is erased whatever its state, and when there is none
    the handler logs and re-raises [NotExistingFollowRequestError]. *)
Theorem Undo_process_activity_spec activity w fields wrapped_type :
  act_object activity = JObj fields →
  dict_get "type" fields = Some wrapped_type →
  (json_eq_str wrapped_type "Follow" = false →
   Undo_process_activity activity w = (Returns tt, w))
  ∧ (json_eq_str wrapped_type "Follow" = true →
     (actors (db w) !! act_actor activity = None →
      Undo_process_activity activity w
      = (Raises (ActorNotFoundException "actor not found for UndoActivity"), w))
     ∧ (∀ follower url,
          actors (db w) !! act_actor activity = Some follower →
          act_type activity = "Undo" →
          dict_get "object" fields = Some (JStr url) →
          actors (db w) !! url = None →
          Undo_process_activity activity w
          = (Raises (ActorNotFoundException "object actor not found for UndoActivity"),
             w))
     ∧ (∀ follower followed url,
          actors (db w) !! act_actor activity = Some follower →
          act_type activity = "Undo" →
          dict_get "object" fields = Some (JStr url) →
          actors (db w) !! url = Some followed →
          let pair := (user_id (actor_user follower), user_id (actor_user followed)) in
          match follow_requests (db w) !! pair with
          | None =>
              Undo_process_activity activity w
              = (Raises NotExistingFollowRequestError,
                 logged "UndoActivity: follow request does not exist." w)
          | Some _ =>
              Undo_process_activity activity w
              = (Returns tt, set_db (set_follow_requests (delete pair)) w)
          end)).
Proof.
  intros Hobj Htype.
  assert (Hsub : subscript (act_object activity) "type" w = (Returns wrapped_type, w)).
  { rewrite Hobj. unfold subscript. by rewrite Htype. }
  unfold Undo_process_activity. rewrite (bind_returns _ _ _ _ _ Hsub).
  split; intros Hfollow; rewrite Hfollow; [done|].
  unfold Undo_undoes_follow. split; [|split].
  - intros Hnone. erewrite bind_raises; [reflexivity|].
    unfold get_actors. erewrite bind_raises; [reflexivity|].
    by apply get_actor_unknown.
  - intros follower url Hfollower Hundo Hget Hnone.
    erewrite bind_raises; [reflexivity|].
    rewrite (get_actors_lookup _ _ _ _ _ _ _
               (get_actor_known _ activity false w follower Hfollower)
               (object_actor_activitypub_id_object _ _ _ _ Hobj Hundo Hget)).
    by rewrite Hnone.
  - intros follower followed url Hfollower Hundo Hget Hfollowed.
    set (pair := (user_id (actor_user follower), user_id (actor_user followed))).
    erewrite bind_returns;
      [|rewrite (get_actors_lookup _ _ _ _ _ _ _
                   (get_actor_known _ activity false w follower Hfollower)
                   (object_actor_activitypub_id_object _ _ _ _ Hobj Hundo Hget));
        by rewrite Hfollowed].
    unfold undoes_follow, follow_state, set_follow_state, log_and_reraise.
    run. fold pair. by destruct (follow_requests (db w) !! pair).
Qed.

End Undo.

(** ** The workout handlers *)

Section WorkoutHandlers.
Context `{Collaborators}.

Lemma subscript_world obj key w r w1 : subscript obj key w = (r, w1) → w1 = w.
Proof.
  unfold subscript. destruct obj; run; try case_match; by inversion 1.
Qed.

(** C4 (amended).  [DeleteActivity] and [UpdateActivity]: the acting actor
    is resolved first, without creation, so an unknown actor raises
    [ActorNotFoundException] whatever the envelope [id]; with the actor
    resolved, the handler returns without any effect when the [id] does not
    contain ["workout"]; when it does, a missing workout for the object's
    [id] raises [ObjectNotFoundException], and a workout whose owner's actor
    is not the acting actor raises the actor-mismatch [ActivityException];
    in each of these outcomes the world is left exactly as it was. *)
Theorem Delete_Update_process_activity_spec (delete : bool) activity w :
  let cls := if delete then DeleteActivity else UpdateActivity in
  let process := if delete then Delete_process_activity else Update_process_activity in
  (actors (db w) !! act_actor activity = None →
   process activity w
   = (Raises (ActorNotFoundException ("actor not found for " +:+ activity_name cls)), w))
  ∧ (∀ actor,
       actors (db w) !! act_actor activity = Some actor →
       (str_in "workout" (act_id activity) = false →
        process activity w = (Returns tt, w))
       ∧ (∀ key,
            str_in "workout" (act_id activity) = true →
            subscript (act_object activity) "id" w = (Returns key, w) →
            query_workout key w = (Returns None, w) →
            process activity w
            = (Raises (ObjectNotFoundException "workout" (activity_name cls)), w))
       ∧ (∀ key workout,
            str_in "workout" (act_id activity) = true →
            subscript (act_object activity) "id" w = (Returns key, w) →
            query_workout key w = (Returns (Some workout), w) →
            user_actor_id (workout_user workout) ≠ actor_id actor →
            process activity w
            = (Raises (ActivityException
                         (activity_name cls
                          +:+ ": activity actor does not match workout actor.")), w))).
Proof.
  intros cls process.
  destruct delete; subst cls process;
    unfold Delete_process_activity, Update_process_activity,
      delete_remote_workout, update_remote_workout.
  all: split;
    [ intros Hnone; erewrite bind_raises; [reflexivity|]; by apply get_actor_unknown
    | intros actor Hactor;
      rewrite (bind_returns _ _ _ _ _ (get_actor_known _ activity false w actor Hactor)) ].
  all: split; [by intros ->|split].
  all: try (intros key -> Hkey Hquery;
            by rewrite (bind_returns _ _ _ _ _ Hkey), (bind_returns _ _ _ _ _ Hquery)).
  all: intros key workout -> Hkey Hquery Hne;
    rewrite (bind_returns _ _ _ _ _ Hkey), (bind_returns _ _ _ _ _ Hquery);
    apply Nat.eqb_neq in Hne; by rewrite Hne.
Qed.


Lemma bind_raises_keep_db {A B} (c : M A) (k : A → M B) :
  keeps_db c → (∀ a, raises_keep_db (k a)) → raises_keep_db (bind c k).
Proof.
  intros Hc Hk w e w1. unfold bind.
  destruct (c w) as [[a|e'] w'] eqn:Hrun.
  - intros Hcont. rewrite <- (Hc _ _ _ Hrun). by eapply Hk.
  - inversion 1; subst. by eapply Hc.
Qed.

Lemma subscript_keeps_db obj key : keeps_db (subscript obj key).
Proof. intros w r w1 Hrun. by rewrite (subscript_world _ _ _ _ _ Hrun). Qed.

Lemma lift_outcome_keeps_db {A} (o : outcome A) : keeps_db (lift_outcome o).
Proof. intros w r w1. unfold lift_outcome. by inversion 1. Qed.

Lemma setattr_keeps_db obj f : keeps_db (setattr obj f).
Proof. intros w r w1. unfold setattr. run. by inversion 1. Qed.

Lemma session_commit_raises_world w e w1 :
  session_commit w = (Raises e, w1) → w1 = w.
Proof.
  unfold session_commit. destruct (omap flush_error (session_dirty w)); by inversion 1.
Qed.

Lemma session_commit_raises_keep_db : raises_keep_db session_commit.
Proof. intros w e w1 Hrun. by rewrite (session_commit_raises_world _ _ _ Hrun). Qed.

Lemma timedelta_in_range seconds :
  (-999999999 ≤ seconds `div` 86400 ≤ 999999999)%Z → timedelta seconds = Returns seconds.
Proof.
  intros [Hmin Hmax]. unfold timedelta.
  rewrite (proj2 (Z.ltb_ge _ _)), (proj2 (Z.ltb_ge _ _)) by lia. simpl.
  by rewrite (proj2 (Z.ltb_ge _ _)), (proj2 (Z.ltb_ge _ _)) by lia.
Qed.

Lemma convert_duration_string_to_timedelta_returns duration_string seconds w :
  convert_duration_string_to_seconds duration_string = Returns seconds →
  (-999999999 ≤ seconds `div` 86400 ≤ 999999999)%Z →
  convert_duration_string_to_timedelta duration_string w = (Returns seconds, w).
Proof.
  intros Hseconds Hrange. unfold convert_duration_string_to_timedelta, lift_outcome.
  run. by rewrite Hseconds, (timedelta_in_range _ Hrange).
Qed.

Lemma convert_duration_string_to_timedelta_world duration_string w r w1 :
  convert_duration_string_to_timedelta duration_string w = (r, w1) → w1 = w.
Proof.
  unfold convert_duration_string_to_timedelta, lift_outcome. run.
  destruct (convert_duration_string_to_seconds duration_string); by inversion 1.
Qed.

Lemma convert_duration_string_to_timedelta_keeps_db duration_string :
  keeps_db (convert_duration_string_to_timedelta duration_string).
Proof.
  intros w r w1 Hrun.
  by rewrite (convert_duration_string_to_timedelta_world _ _ _ _ Hrun).
Qed.

Create HintDb keep_db.
#[local] Hint Resolve subscript_keeps_db lift_outcome_keeps_db setattr_keeps_db
  convert_duration_string_to_timedelta_keeps_db session_commit_raises_keep_db : keep_db.

Lemma assign_and_commit_raises_keep_db workout_data workout_to_update :
  raises_keep_db (assign_and_commit workout_data workout_to_update).
Proof.
  unfold assign_and_commit.
  repeat (apply bind_raises_keep_db; [auto with keep_db|intros ?]).
  auto with keep_db.
Qed.

(** C3.  [UpdateActivity.update_remote_workout]: once the workout is found
    and owned by the acting actor, any exception raised by the assignment
    block (a missing key, a duration or a workout date that does not parse, a
    visibility that is not a level, a failing commit) is re-raised as the one
    [ActivityException] "invalid Workout activity" carrying the class name
    and the message of the original exception, and the persisted tables,
    hence every stored field of the workout, are exactly those of before. *)
Theorem update_remote_workout_failure activity actor w key workout e w1 :
  subscript (act_object activity) "id" w = (Returns key, w) →
  query_workout key w = (Returns (Some workout), w) →
  user_actor_id (workout_user workout) = actor_id actor →
  assign_and_commit (act_object activity) workout w = (Raises e, w1) →
  update_remote_workout activity actor w
  = (Raises (ActivityException
               ("UpdateActivity: invalid Workout activity (" +:+ exn_class_name e
                +:+ ": " +:+ exn_str e +:+ ").")), w1)
  ∧ db w1 = db w.
Proof.
  intros Hkey Hquery Howner Hraise. split.
  - unfold update_remote_workout.
    rewrite (bind_returns _ _ _ _ _ Hkey), (bind_returns _ _ _ _ _ Hquery).
    apply Nat.eqb_eq in Howner. rewrite Howner. simpl.
    by rewrite (try_except_raises _ _ _ _ _ Hraise).
  - by eapply assign_and_commit_raises_keep_db.
Qed.

(** A failed [Update] never reaches the persisted tables, whichever step
    raised. *)
Lemma Update_process_activity_raises_keep_db activity :
  raises_keep_db (Update_process_activity activity).
Proof.
  unfold Update_process_activity, update_remote_workout.
  apply bind_raises_keep_db.
  { intros w r w1 Hrun. by rewrite (get_actor_no_create_world _ _ _ _ _ Hrun). }
  intros actor. destruct (str_in "workout" (act_id activity)); [|by inversion 1].
  apply bind_raises_keep_db; [auto with keep_db|intros key].
  apply bind_raises_keep_db.
  { intros w r w1. unfold query_workout. run. by inversion 1. }
  intros [workout|]; [|by inversion 1].
  destruct (negb _); [by inversion 1|].
  intros w e w1. unfold try_except.
  destruct (assign_and_commit _ _ w) as [[[]|e'] w'] eqn:Hrun; [by inversion 1|].
  unfold raise. inversion 1; subst.
  by eapply assign_and_commit_raises_keep_db.
Qed.

End WorkoutHandlers.

(** ** Visibility policy *)

Section VisibilityPolicy.
Import Visibility.

(** C1.  [can_view_workout] follows the fixed decision table, for either
    visibility field: the owner gets [(true, "owner")] at every level; any
    other viewer is a ["follower"] exactly when they have an accepted follow
    request pointed at the owner and ["other"] otherwise, an absent viewer
    being ["other"]; the boolean is [false] for [PRIVATE], holds exactly for
    followers for [FOLLOWERS] (and [FOLLOWERS_AND_REMOTE]) and is [true]
    for [PUBLIC]. *)
Theorem can_view_workout_decision_table d workout visibility user :
  let owner := workout_user workout in
  let level := getattr_visibility workout visibility in
  let allowed := fst (can_view_workout d workout visibility user) in
  let relation := snd (can_view_workout d workout visibility user) in
  (∀ u, user = Some u → user_id u = user_id owner →
     can_view_workout d workout visibility user = (true, "owner"))
  ∧ ((∀ u, user = Some u → user_id u ≠ user_id owner) →
     (relation = "follower"
      ↔ ∃ u, user = Some u
             ∧ follow_requests d !! (user_id u, user_id owner) = Some Accepted)
     ∧ (relation ≠ "follower" → relation = "other")
     ∧ (user = None → relation = "other")
     ∧ match level with
       | PRIVATE => allowed = false
       | FOLLOWERS | FOLLOWERS_AND_REMOTE => allowed = true ↔ relation = "follower"
       | PUBLIC => allowed = true
       end).
Proof.
  intros owner level allowed relation. split.
  - intros u -> Howner. unfold can_view_workout. fold owner.
    apply Nat.eqb_eq in Howner. by rewrite Howner.
  - intros Hother. subst allowed relation level. unfold can_view_workout.
    fold owner. destruct user as [u|].
    + specialize (Hother u eq_refl). apply Nat.eqb_neq in Hother. rewrite Hother.
      unfold is_accepted_follower.
      destruct (bool_decide_reflect
                  (follow_requests d !! (user_id u, user_id owner) = Some Accepted))
        as [Hacc|Hacc];
        destruct (getattr_visibility workout visibility); simpl;
        repeat split; try done; try (by exists u);
        by intros (u' & [= <-] & Hacc').
    + destruct (getattr_visibility workout visibility); simpl;
        repeat split; try done; by intros (u & ? & _).
Qed.

(** C9.  [get_workout] refuses with [WorkoutForbiddenException] every
    viewer whom the owner of the workout has blocked, whatever the
    visibility level of the workout and whatever the follow graph: the block
    gate is evaluated before the visibility decision. *)
Theorem get_workout_blocked_viewer d workout_short_id workout viewer :
  List.find (λ r, String.eqb (short_id r) workout_short_id) (workouts d) = Some workout →
  (user_id (workout_user workout), user_id viewer) ∈ blocked_users d →
  get_workout d workout_short_id (Some viewer) = Raises WorkoutForbiddenException.
Proof.
  intros Hfind Hblocked. unfold get_workout. rewrite Hfind.
  unfold is_blocked_by. by rewrite bool_decide_eq_true_2.
Qed.

(** C10.  Admin rights grant no visibility privilege: [get_workout] gives
    the same outcome for an account with and without admin rights, and a
    viewer who is neither the owner nor an accepted follower is refused for
    [PRIVATE] and [FOLLOWERS] (and [FOLLOWERS_AND_REMOTE]) workouts and,
    unless blocked, gets a [PUBLIC] workout, with or without admin rights. *)
Theorem get_workout_ignores_admin_rights d workout_short_id viewer (admin : bool) :
  get_workout d workout_short_id (Some (with_admin_rights true viewer))
  = get_workout d workout_short_id (Some (with_admin_rights false viewer))
  ∧ (∀ workout,
       List.find (λ r, String.eqb (short_id r) workout_short_id) (workouts d)
       = Some workout →
       user_id viewer ≠ user_id (workout_user workout) →
       follow_requests d !! (user_id viewer, user_id (workout_user workout))
       ≠ Some Accepted →
       match workout_visibility workout with
       | PUBLIC =>
           (user_id (workout_user workout), user_id viewer) ∉ blocked_users d →
           get_workout d workout_short_id (Some (with_admin_rights admin viewer))
           = Returns workout
       | _ =>
           get_workout d workout_short_id (Some (with_admin_rights admin viewer))
           = Raises WorkoutForbiddenException
       end).
Proof.
  split; [reflexivity|].
  intros workout Hfind Hother Hfollow. unfold get_workout. rewrite Hfind.
  unfold is_blocked_by, can_view_workout, is_accepted_follower. simpl.
  apply Nat.eqb_neq in Hother. rewrite Hother.
  rewrite (bool_decide_eq_false_2 _ Hfollow).
  destruct (workout_visibility workout); try intros Hblock;
    rewrite ?(bool_decide_eq_false_2 _ Hblock); simpl; by repeat case_match.
Qed.

End VisibilityPolicy.

(** ** Outbound fan-out *)

Section FanOutSelector.
Import FanOut.
Context `{Collaborators}.

Lemma remote_followers_singleton d owner url follower :
  actors d !! url = Some follower →
  accepted_remote_follower d owner follower →
  (∀ url' a, actors d !! url' = Some a → accepted_remote_follower d owner a → url' = url) →
  remote_followers d owner = [follower].
Proof.
  intros Hactor Hfollows Honly. unfold remote_followers.
  assert (filter (λ kv, accepted_remote_follower d owner kv.2) (actors d)
          = {[ url := follower ]}) as ->.
  { apply map_eq. intros k. apply option_eq. intros a.
    rewrite map_lookup_filter_Some, lookup_singleton_Some. simpl. split.
    - intros [Hk Ha]. pose proof (Honly _ _ Hk Ha) as ->. split; [done|congruence].
    - by intros [<- <-]. }
  by rewrite map_to_list_singleton.
Qed.

Lemma remote_followers_none d owner :
  (∀ url a, actors d !! url = Some a →
     follow_requests d !! (user_id (actor_user a), user_id owner) = Some Accepted →
     domain_is_remote (actor_domain a) = false) →
  remote_followers d owner = [].
Proof.
  intros Hlocal. unfold remote_followers.
  assert (filter (λ kv, accepted_remote_follower d owner kv.2) (actors d) = ∅) as ->.
  { apply map_eq. intros k. rewrite lookup_empty. apply map_lookup_filter_None.
    right. intros a Hk [Hacc Hremote]. simpl in *.
    rewrite (Hlocal _ _ Hk Hacc) in Hremote. done. }
  by rewrite map_to_list_empty.
Qed.

(** C2.  The fan-out of a local workout: at [PRIVATE] and [FOLLOWERS] no
    delivery call is made, whatever the followers; at [FOLLOWERS_AND_REMOTE]
    and [PUBLIC], when exactly one actor is an accepted remote follower of
    the owner (local followers being unconstrained), exactly one call is
    made, sent by the owner's actor to that follower's shared inbox alone,
    with the workout activity when the follower's instance is a recognised
    peer and the note activity otherwise; when every accepted follower is
    local no call is made at any level. *)
Theorem select_recipients_spec d workout :
  let owner := workout_user workout in
  (workout_visibility workout = PRIVATE ∨ workout_visibility workout = FOLLOWERS →
   select_recipients d workout = [])
  ∧ (∀ url follower,
       workout_visibility workout = FOLLOWERS_AND_REMOTE
       ∨ workout_visibility workout = PUBLIC →
       actors d !! url = Some follower →
       accepted_remote_follower d owner follower →
       (∀ url' a, actors d !! url' = Some a →
          accepted_remote_follower d owner a → url' = url) →
       select_recipients d workout
       = [ {| sender_id := user_actor_id owner;
              activity := if is_fittrackee_instance (actor_domain follower)
                          then workout_activity workout
                          else note_activity workout;
              recipients := [shared_inbox_url follower] |} ])
  ∧ ((∀ url a, actors d !! url = Some a →
        follow_requests d !! (user_id (actor_user a), user_id owner) = Some Accepted →
        domain_is_remote (actor_domain a) = false) →
     select_recipients d workout = []).
Proof.
  intros owner. unfold select_recipients. fold owner. split; [|split].
  - by intros [-> | ->].
  - intros url follower Hlevel Hactor Hfollows Honly.
    rewrite (remote_followers_singleton _ _ _ _ Hactor Hfollows Honly).
    unfold shared_inboxes, delivery.
    rewrite !filter_cons, !filter_nil.
    destruct (is_fittrackee_instance (actor_domain follower)) eqn:Hpeer;
      repeat case_decide; try done; by destruct Hlevel as [-> | ->].
  - intros Hlocal. rewrite (remote_followers_none _ _ Hlocal).
    by destruct (workout_visibility workout).
Qed.

End FanOutSelector.

(** * Further properties of the handlers *)

(** ** The substring gate *)

Lemma append_cons c (s t : string) : String c s +:+ t = String c (s +:+ t).
Proof. reflexivity. Qed.

Lemma append_nil (t : string) : "" +:+ t = t.
Proof. reflexivity. Qed.

Lemma prefix_app (sub s : string) :
  String.prefix sub s = true ↔ ∃ post, s = sub +:+ post.
Proof.
  revert s. induction sub as [|c sub IH]; intros [|c' s]; simpl.
  - split; [by exists ""|done].
  - split; [by eexists|done].
  - split; [done|by intros (post & ?)].
  - destruct (Ascii.ascii_dec c c') as [<-|Hne].
    + rewrite IH. split; intros (post & Hpost); exists post.
      * by rewrite append_cons, Hpost.
      * rewrite append_cons in Hpost. congruence.
    + split; [done|]. intros (post & Hpost). rewrite append_cons in Hpost. congruence.
Qed.

(** X1.  The test [sub in s] that gates the Delete and Update handlers holds
    exactly when [s] is [pre + sub + post] for some [pre] and [post]. *)
Theorem str_in_substring (sub s : string) :
  str_in sub s = true ↔ ∃ pre post, s = pre +:+ sub +:+ post.
Proof.
  induction s as [|c s IH].
  - change (str_in sub "") with (String.prefix sub "" || false).
    rewrite orb_false_r, prefix_app. split.
    + intros (post & Hpost). by exists "", post.
    + intros (pre & post & Hs). destruct pre; [by exists post|done].
  - change (str_in sub (String c s))
      with (String.prefix sub (String c s) || str_in sub s).
    rewrite orb_true_iff, prefix_app, IH. split.
    + intros [(post & Hpost)|(pre & post & ->)].
      * by exists "", post.
      * by exists (String c pre), post.
    + intros (pre & post & Hs). destruct pre as [|c' pre].
      * left. by exists post.
      * right. exists pre, post. rewrite append_cons in Hs. congruence.
Qed.

(** ** What the workout handlers leave alone *)

Section WorkoutHandlersFrame.
Context `{Collaborators} `{WorkoutFactory}.

Lemma bind_keeps_other_tables {A B} (c : M A) (k : A → M B) :
  keeps_other_tables c → (∀ a, keeps_other_tables (k a)) →
  keeps_other_tables (bind c k).
Proof.
  intros Hc Hk w r w1. unfold bind.
  destruct (c w) as [[a|e] w'] eqn:Hrun.
  - intros Hcont. destruct (Hc _ _ _ Hrun) as [Htables Hlog].
    destruct (Hk _ _ _ _ Hcont) as [Htables' Hlog']. split; congruence.
  - inversion 1; subst. by eapply Hc.
Qed.

Lemma try_except_keeps_other_tables {A} (c : M A) (h : exn → M A) :
  keeps_other_tables c → (∀ e, keeps_other_tables (h e)) →
  keeps_other_tables (try_except c h).
Proof.
  intros Hc Hh w r w1. unfold try_except.
  destruct (c w) as [[a|e] w'] eqn:Hrun.
  - inversion 1; subst. by eapply Hc.
  - intros Hcont. destruct (Hc _ _ _ Hrun) as [Htables Hlog].
    destruct (Hh _ _ _ _ Hcont) as [Htables' Hlog']. split; congruence.
Qed.

Lemma pure_keeps_other_tables {A} (c : M A) :
  (∀ w, snd (c w) = w) → keeps_other_tables c.
Proof. intros Hc w r w1 Hrun. specialize (Hc w). rewrite Hrun in Hc. by subst. Qed.

Lemma subscript_pure obj key w : snd (subscript obj key w) = w.
Proof.
  destruct (subscript obj key w) as [r w1] eqn:Hrun.
  by rewrite (subscript_world _ _ _ _ _ Hrun).
Qed.

Lemma get_actor_of_class_get_actor cls activity create :
  get_actor_of_class (activity_name cls) activity create = get_actor cls activity create.
Proof. reflexivity. Qed.

Lemma get_actor_of_class_pure name activity w :
  snd (get_actor_of_class name activity false w) = w.
Proof.
  unfold get_actor_of_class, query_actor. run.
  by destruct (actors (db w) !! act_actor activity).
Qed.

Lemma get_actor_pure cls activity w : snd (get_actor cls activity false w) = w.
Proof. apply get_actor_of_class_pure. Qed.

Lemma setattr_keeps_other_tables obj f : keeps_other_tables (setattr obj f).
Proof. intros w r w1. unfold setattr. run. by inversion 1. Qed.

Lemma session_delete_keeps_other_tables obj : keeps_other_tables (session_delete obj).
Proof. intros w r w1. unfold session_delete. run. by inversion 1. Qed.

Lemma session_commit_keeps_other_tables : keeps_other_tables session_commit.
Proof.
  intros w r w1. unfold session_commit.
  destruct (omap flush_error (session_dirty w)); by inversion 1.
Qed.

Lemma session_add_commit_keeps_other_tables obj :
  keeps_other_tables (session_add_commit obj).
Proof.
  intros w r w1. unfold session_add_commit.
  destruct (omap flush_error _); by inversion 1.
Qed.

Create HintDb frame.
#[local] Hint Resolve setattr_keeps_other_tables session_delete_keeps_other_tables
  session_commit_keeps_other_tables session_add_commit_keeps_other_tables : frame.
#[local] Hint Extern 1 (keeps_other_tables (subscript _ _)) =>
  apply pure_keeps_other_tables; intros; apply subscript_pure : frame.
#[local] Hint Extern 1 (keeps_other_tables (get_actor _ _ false)) =>
  apply pure_keeps_other_tables; intros; apply get_actor_pure : frame.
#[local] Hint Extern 1 (keeps_other_tables (get_actor_of_class _ _ false)) =>
  apply pure_keeps_other_tables; intros; apply get_actor_of_class_pure : frame.
#[local] Hint Extern 2 (keeps_other_tables _) =>
  apply pure_keeps_other_tables; intros; reflexivity : frame.

Ltac frame :=
  repeat first
    [ apply bind_keeps_other_tables; [|intros ?]
    | apply try_except_keeps_other_tables; [|intros ?]
    | progress auto with frame
    | match goal with
      | |- keeps_other_tables (match ?x with _ => _ end) => destruct x
      | |- keeps_other_tables (if ?x then _ else _) => destruct x
      end ].

(** X2.  Whatever their outcome, [CreateActivity], [DeleteActivity] and
    [UpdateActivity] leave the domains, the actors, the follow requests, the
    blocks and the application log as they found them. *)
Theorem workout_handlers_keep_other_tables activity :
  keeps_other_tables (Create_process_activity activity)
  ∧ keeps_other_tables (Delete_process_activity activity)
  ∧ keeps_other_tables (Update_process_activity activity).
Proof.
  unfold Create_process_activity, create_remote_workout, Delete_process_activity,
    delete_remote_workout, Update_process_activity, update_remote_workout,
    assign_and_commit, convert_duration_string_to_timedelta, query_workout.
  split; [|split]; frame.
Qed.

End WorkoutHandlersFrame.

(** ** The effect of a Delete *)

Section DeleteEffect.
Context `{Collaborators}.

Lemma session_view_clean w : clean_session w → session_view w = workouts (db w).
Proof. intros [Hdirty _]. unfold session_view. by rewrite Hdirty. Qed.

Lemma delete_run activity w actor fields ap workout :
  clean_session w →
  actors (db w) !! act_actor activity = Some actor →
  str_in "workout" (act_id activity) = true →
  act_object activity = JObj fields →
  dict_get "id" fields = Some (JStr ap) →
  List.find (λ r, bool_decide (ap_id r = Some ap)) (workouts (db w)) = Some workout →
  user_actor_id (workout_user workout) = actor_id actor →
  Delete_process_activity activity w
  = (Returns tt,
     {| db := set_workouts (λ _, remove_workout (workout_id workout) (workouts (db w)))
                (db w);
        session_dirty := []; session_deleted := []; app_log := app_log w |}).
Proof.
  intros Hclean Hactor Hgate Hobj Hid Hfind Howner.
  pose proof (session_view_clean w Hclean) as Hview. destruct Hclean as [Hdirty Hdeleted].
  unfold Delete_process_activity.
  rewrite (bind_returns _ _ _ _ _ (get_actor_known _ activity false w actor Hactor)).
  rewrite Hgate. unfold delete_remote_workout, subscript, query_workout.
  rewrite Hobj, Hid. run. rewrite Hview, Hfind.
  apply Nat.eqb_eq in Howner. rewrite Howner. simpl.
  unfold session_delete, session_commit. run. rewrite Hdirty, Hdeleted. simpl.
  unfold session_view. simpl. by rewrite ?Hdirty.
Qed.

Lemma find_filter_None {A} (P : A → bool) (Q : A → Prop) `{!∀ x, Decision (Q x)} l :
  (∀ x, x ∈ l → P x = true → ¬ Q x) → List.find P (filter Q l) = None.
Proof.
  induction l as [|x l IH]; [done|]. intros Hl.
  rewrite filter_cons. case_decide as HQ; simpl.
  - destruct (P x) eqn:HP.
    + exfalso. eapply Hl; [left|done..].
    + apply IH. intros y Hy. apply Hl. by right.
  - apply IH. intros y Hy. apply Hl. by right.
Qed.

(** X3.  From a clean session, a [Delete] sent by the owner's actor for a
    stored workout returns, removes the rows bearing the primary key of that
    workout and keeps every other row, in order. *)
Theorem Delete_removes_the_workout_only activity w actor fields ap workout :
  clean_session w →
  actors (db w) !! act_actor activity = Some actor →
  str_in "workout" (act_id activity) = true →
  act_object activity = JObj fields →
  dict_get "id" fields = Some (JStr ap) →
  List.find (λ r, bool_decide (ap_id r = Some ap)) (workouts (db w)) = Some workout →
  user_actor_id (workout_user workout) = actor_id actor →
  let run := Delete_process_activity activity w in
  fst run = Returns tt
  ∧ workouts (db (snd run))
    = filter (λ r, workout_id r ≠ workout_id workout) (workouts (db w))
  ∧ clean_session (snd run).
Proof.
  intros Hclean Hactor Hgate Hobj Hid Hfind Howner run. subst run.
  by rewrite (delete_run _ _ _ _ _ _ Hclean Hactor Hgate Hobj Hid Hfind Howner).
Qed.

(** X4.  When no other row bears the same [ap_id], the same [Delete] sent a
    second time raises [ObjectNotFoundException] and changes nothing
    more. *)
Theorem Delete_twice_is_not_found activity w actor fields ap workout :
  clean_session w →
  actors (db w) !! act_actor activity = Some actor →
  str_in "workout" (act_id activity) = true →
  act_object activity = JObj fields →
  dict_get "id" fields = Some (JStr ap) →
  List.find (λ r, bool_decide (ap_id r = Some ap)) (workouts (db w)) = Some workout →
  user_actor_id (workout_user workout) = actor_id actor →
  (∀ r, r ∈ workouts (db w) → ap_id r = Some ap → workout_id r = workout_id workout) →
  let w1 := snd (Delete_process_activity activity w) in
  Delete_process_activity activity w1
  = (Raises (ObjectNotFoundException "workout" "DeleteActivity"), w1).
Proof.
  intros Hclean Hactor Hgate Hobj Hid Hfind Howner Hunique w1. subst w1.
  rewrite (delete_run _ _ _ _ _ _ Hclean Hactor Hgate Hobj Hid Hfind Howner). simpl.
  unfold Delete_process_activity.
  erewrite bind_returns; [|by apply get_actor_known].
  rewrite Hgate. unfold delete_remote_workout, subscript, query_workout.
  rewrite Hobj, Hid. run. unfold session_view, remove_workout. simpl.
  rewrite find_filter_None; [done|].
  intros r Hr Hap Hpk. apply bool_decide_eq_true_1 in Hap. by apply Hpk, Hunique.
Qed.

End DeleteEffect.

(** ** The effect of an Update *)

Section UpdateEffect.
Context `{Collaborators}.

Lemma subscript_get fields key v w :
  dict_get key fields = Some v → subscript (JObj fields) key w = (Returns v, w).
Proof. intros Hget. unfold subscript. by rewrite Hget. Qed.

Lemma setattr_first obj f w :
  session_dirty w = [] →
  setattr obj f w = (Returns tt, with_session_dirty [f obj] w).
Proof. intros Hdirty. unfold setattr, with_session_dirty. run. by rewrite Hdirty. Qed.

Lemma setattr_next obj f w current :
  session_dirty w = [current] → workout_id current = workout_id obj →
  setattr obj f w = (Returns tt, with_session_dirty [f current] w).
Proof.
  intros Hdirty Hpk. unfold setattr, with_session_dirty. run.
  rewrite Hdirty. simpl. rewrite Hpk, Nat.eqb_refl. simpl.
  rewrite filter_cons, decide_False by (intros Hne; by apply Hne). done.
Qed.

Lemma with_session_dirty_twice objs objs' w :
  with_session_dirty objs (with_session_dirty objs' w) = with_session_dirty objs w.
Proof. reflexivity. Qed.

(** The seven assignments that precede the parsing of the workout date. *)
Lemma assign_before_date fields workout w ave dist dur dur_s top mov mov_s sport name :
  session_dirty w = [] →
  dict_get "ave_speed" fields = Some ave →
  dict_get "distance" fields = Some dist →
  dict_get "duration" fields = Some dur →
  convert_duration_string_to_seconds dur = Returns dur_s →
  (-999999999 ≤ dur_s `div` 86400 ≤ 999999999)%Z →
  dict_get "max_speed" fields = Some top →
  dict_get "moving" fields = Some mov →
  convert_duration_string_to_seconds mov = Returns mov_s →
  (-999999999 ≤ mov_s `div` 86400 ≤ 999999999)%Z →
  dict_get "sport_id" fields = Some sport →
  dict_get "title" fields = Some name →
  assign_and_commit (JObj fields) workout w
  = (let! v := subscript (JObj fields) "workout_date" in
     let! v := lift_outcome (strptime_workout_date v) in
     setattr workout (with_workout_date v) ;;;
     let! v := subscript (JObj fields) "workout_visibility" in
     let! v := lift_outcome (coerce_privacy_level v) in
     setattr workout (with_workout_visibility v) ;;;
     session_commit)
      (with_session_dirty
         [with_title name
            (with_sport_id sport
               (with_moving mov_s
                  (with_max_speed top
                     (with_duration dur_s
                        (with_distance dist (with_ave_speed ave workout))))))] w).
Proof.
  intros Hdirty Have Hdist Hdur Hdur_s Hdur_r Htop Hmov Hmov_s Hmov_r Hsport Hname.
  unfold assign_and_commit.
  rewrite (bind_returns _ _ _ _ _ (subscript_get _ _ _ _ Have)).
  rewrite (bind_returns _ _ _ _ _ (setattr_first _ _ _ Hdirty)).
  rewrite (bind_returns _ _ _ _ _ (subscript_get _ _ _ _ Hdist)).
  erewrite bind_returns; [|by apply setattr_next].
  rewrite (bind_returns _ _ _ _ _ (subscript_get _ _ _ _ Hdur)).
  erewrite bind_returns; [|by apply convert_duration_string_to_timedelta_returns].
  erewrite bind_returns; [|by apply setattr_next].
  rewrite (bind_returns _ _ _ _ _ (subscript_get _ _ _ _ Htop)).
  erewrite bind_returns; [|by apply setattr_next].
  rewrite (bind_returns _ _ _ _ _ (subscript_get _ _ _ _ Hmov)).
  erewrite bind_returns; [|by apply convert_duration_string_to_timedelta_returns].
  erewrite bind_returns; [|by apply setattr_next].
  rewrite (bind_returns _ _ _ _ _ (subscript_get _ _ _ _ Hsport)).
  erewrite bind_returns; [|by apply setattr_next].
  rewrite (bind_returns _ _ _ _ _ (subscript_get _ _ _ _ Hname)).
  erewrite bind_returns; [|by apply setattr_next].
  reflexivity.
Qed.


(** The whole block when every field reads and the flush succeeds. *)
Lemma assign_and_commit_run fields workout w
    ave dist dur dur_s top mov mov_s sport name date date_v level level_v :
  clean_session w →
  dict_get "ave_speed" fields = Some ave →
  dict_get "distance" fields = Some dist →
  dict_get "duration" fields = Some dur →
  convert_duration_string_to_seconds dur = Returns dur_s →
  (-999999999 ≤ dur_s `div` 86400 ≤ 999999999)%Z →
  dict_get "max_speed" fields = Some top →
  dict_get "moving" fields = Some mov →
  convert_duration_string_to_seconds mov = Returns mov_s →
  (-999999999 ≤ mov_s `div` 86400 ≤ 999999999)%Z →
  dict_get "sport_id" fields = Some sport →
  dict_get "title" fields = Some name →
  dict_get "workout_date" fields = Some date →
  strptime_workout_date date = Returns date_v →
  dict_get "workout_visibility" fields = Some level →
  coerce_privacy_level level = Returns level_v →
  flush_error (overwrite workout ave dist dur_s top mov_s sport name date_v level_v)
  = None →
  assign_and_commit (JObj fields) workout w
  = (Returns tt,
     {| db := set_workouts
                (λ _, replace_workout
                        (overwrite workout ave dist dur_s top mov_s sport name date_v
                           level_v)
                        (workouts (db w))) (db w);
        session_dirty := []; session_deleted := []; app_log := app_log w |}).
Proof.
  intros [Hdirty Hdeleted] Have Hdist Hdur Hdur_s Hdur_r Htop Hmov Hmov_s Hmov_r Hsport Hname
    Hdate Hdate_v Hlevel Hlevel_v Hflush.
  rewrite (assign_before_date _ _ _ _ _ _ _ _ _ _ _ _ Hdirty Have Hdist Hdur Hdur_s Hdur_r
             Htop Hmov Hmov_s Hmov_r Hsport Hname).
  rewrite (bind_returns _ _ _ _ _ (subscript_get _ _ _ _ Hdate)).
  erewrite bind_returns; [|unfold lift_outcome; by rewrite Hdate_v].
  erewrite bind_returns; [|by apply setattr_next].
  rewrite (bind_returns _ _ _ _ _ (subscript_get _ _ _ _ Hlevel)).
  erewrite bind_returns; [|unfold lift_outcome; by rewrite Hlevel_v].
  erewrite bind_returns; [|by apply setattr_next].
  unfold session_commit, session_view, with_session_dirty. simpl.
  change (with_workout_visibility _ _)
    with (overwrite workout ave dist dur_s top mov_s sport name date_v level_v).
  by rewrite Hflush, Hdeleted.
Qed.

Lemma update_run activity w actor fields ap workout
    ave dist dur dur_s top mov mov_s sport name date date_v level level_v :
  clean_session w →
  actors (db w) !! act_actor activity = Some actor →
  str_in "workout" (act_id activity) = true →
  act_object activity = JObj fields →
  dict_get "id" fields = Some (JStr ap) →
  List.find (λ r, bool_decide (ap_id r = Some ap)) (workouts (db w)) = Some workout →
  user_actor_id (workout_user workout) = actor_id actor →
  dict_get "ave_speed" fields = Some ave →
  dict_get "distance" fields = Some dist →
  dict_get "duration" fields = Some dur →
  convert_duration_string_to_seconds dur = Returns dur_s →
  (-999999999 ≤ dur_s `div` 86400 ≤ 999999999)%Z →
  dict_get "max_speed" fields = Some top →
  dict_get "moving" fields = Some mov →
  convert_duration_string_to_seconds mov = Returns mov_s →
  (-999999999 ≤ mov_s `div` 86400 ≤ 999999999)%Z →
  dict_get "sport_id" fields = Some sport →
  dict_get "title" fields = Some name →
  dict_get "workout_date" fields = Some date →
  strptime_workout_date date = Returns date_v →
  dict_get "workout_visibility" fields = Some level →
  coerce_privacy_level level = Returns level_v →
  flush_error (overwrite workout ave dist dur_s top mov_s sport name date_v level_v)
  = None →
  Update_process_activity activity w
  = (Returns tt,
     {| db := set_workouts
                (λ _, replace_workout
                        (overwrite workout ave dist dur_s top mov_s sport name date_v
                           level_v)
                        (workouts (db w))) (db w);
        session_dirty := []; session_deleted := []; app_log := app_log w |}).
Proof.
  intros Hclean Hactor Hgate Hobj Hid Hfind Howner Have Hdist Hdur Hdur_s Hdur_r Htop Hmov
    Hmov_s Hmov_r Hsport Hname Hdate Hdate_v Hlevel Hlevel_v Hflush.
  unfold Update_process_activity.
  rewrite (bind_returns _ _ _ _ _ (get_actor_known _ activity false w actor Hactor)).
  rewrite Hgate. unfold update_remote_workout. rewrite Hobj.
  rewrite (bind_returns _ _ _ _ _ (subscript_get _ _ _ _ Hid)).
  unfold query_workout. run. rewrite (session_view_clean w Hclean), Hfind.
  apply Nat.eqb_eq in Howner. rewrite Howner. simpl.
  by rewrite (assign_and_commit_run _ _ _ _ _ _ _ _ _ _ _ _ _ _ _ _ Hclean Have Hdist Hdur
                Hdur_s Hdur_r Htop Hmov Hmov_s Hmov_r Hsport Hname Hdate Hdate_v Hlevel Hlevel_v
                Hflush).
Qed.


(** X5.  From a clean session, an [Update] sent by the owner's actor whose
    nine fields read, parse and flush, both durations being within the range
    of [timedelta], returns, and the stored rows are the former ones where
    the rows bearing the workout's primary key became the workout with its
    nine attributes overwritten; its primary key, short id, [ap_id], owner
    and map visibility are kept, and so is every other row. *)
Theorem Update_overwrites_nine_fields activity w actor fields ap workout
    ave dist dur dur_s top mov mov_s sport name date date_v level level_v :
  clean_session w →
  actors (db w) !! act_actor activity = Some actor →
  str_in "workout" (act_id activity) = true →
  act_object activity = JObj fields →
  dict_get "id" fields = Some (JStr ap) →
  List.find (λ r, bool_decide (ap_id r = Some ap)) (workouts (db w)) = Some workout →
  user_actor_id (workout_user workout) = actor_id actor →
  dict_get "ave_speed" fields = Some ave →
  dict_get "distance" fields = Some dist →
  dict_get "duration" fields = Some dur →
  convert_duration_string_to_seconds dur = Returns dur_s →
  (-999999999 ≤ dur_s `div` 86400 ≤ 999999999)%Z →
  dict_get "max_speed" fields = Some top →
  dict_get "moving" fields = Some mov →
  convert_duration_string_to_seconds mov = Returns mov_s →
  (-999999999 ≤ mov_s `div` 86400 ≤ 999999999)%Z →
  dict_get "sport_id" fields = Some sport →
  dict_get "title" fields = Some name →
  dict_get "workout_date" fields = Some date →
  strptime_workout_date date = Returns date_v →
  dict_get "workout_visibility" fields = Some level →
  coerce_privacy_level level = Returns level_v →
  flush_error (overwrite workout ave dist dur_s top mov_s sport name date_v level_v)
  = None →
  let run := Update_process_activity activity w in
  fst run = Returns tt
  ∧ workouts (db (snd run))
    = (λ r, if (workout_id r =? workout_id workout)%nat
            then overwrite workout ave dist dur_s top mov_s sport name date_v level_v
            else r) <$> workouts (db w)
  ∧ clean_session (snd run).
Proof.
  intros Hclean Hactor Hgate Hobj Hid Hfind Howner Have Hdist Hdur Hdur_s Hdur_r Htop Hmov
    Hmov_s Hmov_r Hsport Hname Hdate Hdate_v Hlevel Hlevel_v Hflush run. subst run.
  by rewrite (update_run _ _ _ _ _ _ _ _ _ _ _ _ _ _ _ _ _ _ _ Hclean Hactor Hgate Hobj
                Hid Hfind Howner Have Hdist Hdur Hdur_s Hdur_r Htop Hmov Hmov_s Hmov_r Hsport Hname
                Hdate Hdate_v Hlevel Hlevel_v Hflush).
Qed.

Lemma find_replace_workout (P : Workout → bool) rows found obj :
  List.find P rows = Some found → P obj = true → workout_id obj = workout_id found →
  List.find P (replace_workout obj rows) = Some obj.
Proof.
  intros Hfind Hobj Hpk. unfold replace_workout.
  induction rows as [|r rows IH]; [done|]. simpl in *.
  destruct (Nat.eqb_spec (workout_id r) (workout_id obj)) as [Heq|Hne].
  - by rewrite Hobj.
  - destruct (P r) eqn:Hr; [|by apply IH].
    inversion Hfind; subst. congruence.
Qed.

Lemma replace_workout_twice obj rows :
  replace_workout obj (replace_workout obj rows) = replace_workout obj rows.
Proof.
  unfold replace_workout. rewrite <- list_fmap_compose. apply list_fmap_ext.
  intros i r _. simpl.
  destruct (Nat.eqb_spec (workout_id r) (workout_id obj)) as [Heq|Hne].
  - by rewrite Nat.eqb_refl.
  - by apply Nat.eqb_neq in Hne as ->.
Qed.

(** X6.  Under the same conditions, the same [Update] sent a second time
    returns and leaves the world exactly as the first one left it. *)
Theorem Update_twice_is_update_once activity w actor fields ap workout
    ave dist dur dur_s top mov mov_s sport name date date_v level level_v :
  clean_session w →
  actors (db w) !! act_actor activity = Some actor →
  str_in "workout" (act_id activity) = true →
  act_object activity = JObj fields →
  dict_get "id" fields = Some (JStr ap) →
  List.find (λ r, bool_decide (ap_id r = Some ap)) (workouts (db w)) = Some workout →
  user_actor_id (workout_user workout) = actor_id actor →
  dict_get "ave_speed" fields = Some ave →
  dict_get "distance" fields = Some dist →
  dict_get "duration" fields = Some dur →
  convert_duration_string_to_seconds dur = Returns dur_s →
  (-999999999 ≤ dur_s `div` 86400 ≤ 999999999)%Z →
  dict_get "max_speed" fields = Some top →
  dict_get "moving" fields = Some mov →
  convert_duration_string_to_seconds mov = Returns mov_s →
  (-999999999 ≤ mov_s `div` 86400 ≤ 999999999)%Z →
  dict_get "sport_id" fields = Some sport →
  dict_get "title" fields = Some name →
  dict_get "workout_date" fields = Some date →
  strptime_workout_date date = Returns date_v →
  dict_get "workout_visibility" fields = Some level →
  coerce_privacy_level level = Returns level_v →
  flush_error (overwrite workout ave dist dur_s top mov_s sport name date_v level_v)
  = None →
  let w1 := snd (Update_process_activity activity w) in
  Update_process_activity activity w1 = (Returns tt, w1).
Proof.
  intros Hclean Hactor Hgate Hobj Hid Hfind Howner Have Hdist Hdur Hdur_s Hdur_r Htop Hmov
    Hmov_s Hmov_r Hsport Hname Hdate Hdate_v Hlevel Hlevel_v Hflush w1. subst w1.
  rewrite (update_run _ _ _ _ _ _ _ _ _ _ _ _ _ _ _ _ _ _ _ Hclean Hactor Hgate Hobj
             Hid Hfind Howner Have Hdist Hdur Hdur_s Hdur_r Htop Hmov Hmov_s Hmov_r Hsport Hname
             Hdate Hdate_v Hlevel Hlevel_v Hflush).
  simpl.
  set (updated := overwrite workout ave dist dur_s top mov_s sport name date_v level_v).
  erewrite (update_run activity _ actor fields ap updated); try done.
  - simpl. by rewrite replace_workout_twice.
  - simpl. eapply find_replace_workout; [done| |done].
    apply List.find_some in Hfind as [_ Hap]. done.
Qed.






(** X8.  No rollback: from a clean session, an [Update] whose seven fields
    before the date read and convert, both durations being within the range
    of [timedelta], and whose workout date does not parse, persists nothing
    but leaves the session object dirty, carrying the seven attributes
    assigned before the date. *)
Theorem Update_malformed_date_leaves_session_dirty activity w actor fields ap workout
    ave dist dur dur_s top mov mov_s sport name date e :
  clean_session w →
  actors (db w) !! act_actor activity = Some actor →
  str_in "workout" (act_id activity) = true →
  act_object activity = JObj fields →
  dict_get "id" fields = Some (JStr ap) →
  List.find (λ r, bool_decide (ap_id r = Some ap)) (workouts (db w)) = Some workout →
  user_actor_id (workout_user workout) = actor_id actor →
  dict_get "ave_speed" fields = Some ave →
  dict_get "distance" fields = Some dist →
  dict_get "duration" fields = Some dur →
  convert_duration_string_to_seconds dur = Returns dur_s →
  (-999999999 ≤ dur_s `div` 86400 ≤ 999999999)%Z →
  dict_get "max_speed" fields = Some top →
  dict_get "moving" fields = Some mov →
  convert_duration_string_to_seconds mov = Returns mov_s →
  (-999999999 ≤ mov_s `div` 86400 ≤ 999999999)%Z →
  dict_get "sport_id" fields = Some sport →
  dict_get "title" fields = Some name →
  dict_get "workout_date" fields = Some date →
  strptime_workout_date date = Raises e →
  Update_process_activity activity w
  = (Raises (invalid_workout_activity UpdateActivity e),
     {| db := db w;
        session_dirty :=
          [overwrite workout ave dist dur_s top mov_s sport name (workout_date workout)
             (workout_visibility workout)];
        session_deleted := []; app_log := app_log w |}).
Proof.
  intros Hclean Hactor Hgate Hobj Hid Hfind Howner Have Hdist Hdur Hdur_s Hdur_r Htop Hmov
    Hmov_s Hmov_r Hsport Hname Hdate He.
  unfold Update_process_activity.
  rewrite (bind_returns _ _ _ _ _ (get_actor_known _ activity false w actor Hactor)).
  rewrite Hgate. unfold update_remote_workout. rewrite Hobj.
  rewrite (bind_returns _ _ _ _ _ (subscript_get _ _ _ _ Hid)).
  unfold query_workout. run. rewrite (session_view_clean w Hclean), Hfind.
  apply Nat.eqb_eq in Howner. rewrite Howner. simpl.
  destruct Hclean as [Hdirty Hdeleted].
  rewrite (assign_before_date _ _ _ _ _ _ _ _ _ _ _ _ Hdirty Have Hdist Hdur Hdur_s Hdur_r
             Htop Hmov Hmov_s Hmov_r Hsport Hname).
  rewrite (bind_returns _ _ _ _ _ (subscript_get _ _ _ _ Hdate)).
  unfold with_session_dirty. rewrite He. simpl. by rewrite Hdeleted.
Qed.

End UpdateEffect.

(** ** Resolution of actors, again *)

Section ActorResolutionAgain.
Context `{Collaborators}.

(** X9.  Resolving the acting actor is idempotent: once a resolution has
    returned an actor, any further resolution of the same envelope, with or
    without [create_remote_actor] and for any handler class, returns that
    actor and leaves the world as it is. *)
Theorem get_actor_twice cls activity create w a w1 cls' create' :
  get_actor cls activity create w = (Returns a, w1) →
  get_actor cls' activity create' w1 = (Returns a, w1).
Proof.
  intros Hrun. apply get_actor_known.
  destruct (actors (db w) !! act_actor activity) as [a0|] eqn:Hknown.
  - rewrite (get_actor_known cls activity create w a0 Hknown) in Hrun.
    by inversion Hrun; subst.
  - destruct create.
    + destruct (get_actor_create_returns cls activity w) as (a' & w' & Hrun' & Hnew & _).
      rewrite Hrun' in Hrun. by inversion Hrun; subst.
    + rewrite (get_actor_unknown cls activity w Hknown) in Hrun. by inversion Hrun.
Qed.

(** X10.  A malformed [object]: once the acting actor is resolved (and
    possibly created), a dict without the key that the activity type selects
    makes [get_actors] raise the [KeyError] of that key, and a list makes it
    raise a [TypeError]; nothing else changes. *)
Theorem get_actors_malformed_object cls activity create w actor w1 :
  get_actor cls activity create w = (Returns actor, w1) →
  let key := if String.eqb (act_type activity) "Undo" then "object" else "actor" in
  (∀ fields, act_object activity = JObj fields → dict_get key fields = None →
     get_actors cls activity create w = (Raises (KeyError key), w1))
  ∧ (∀ items, act_object activity = JArr items →
       get_actors cls activity create w
       = (Raises (PyException "TypeError"
                    "list indices must be integers or slices, not str"), w1)).
Proof.
  intros Hactor key. split.
  - intros fields Hobj Hnone. unfold get_actors.
    rewrite (bind_returns _ _ _ _ _ Hactor).
    erewrite bind_raises; [reflexivity|].
    unfold object_actor_activitypub_id. rewrite Hobj. subst key.
    destruct (String.eqb (act_type activity) "Undo"); unfold subscript; by rewrite Hnone.
  - intros items Hobj. unfold get_actors.
    rewrite (bind_returns _ _ _ _ _ Hactor).
    erewrite bind_raises; [reflexivity|].
    unfold object_actor_activitypub_id. rewrite Hobj.
    by destruct (String.eqb (act_type activity) "Undo").
Qed.

(** X11.  A failed [Follow] is not undone: when the acting actor is unknown
    and the object actor, another URL, is unknown too, the handler raises
    [ActorNotFoundException] for the object actor while the acting actor and
    its domain, created by the resolution that came first, stay stored. *)
Theorem Follow_failure_keeps_created_actor activity w url :
  actors (db w) !! act_actor activity = None →
  act_object activity = JStr url →
  url ≠ act_actor activity →
  actors (db w) !! url = None →
  let run := Follow_process_activity activity w in
  fst run = Raises (ActorNotFoundException "object actor not found for FollowActivity")
  ∧ is_Some (actors (db (snd run)) !! act_actor activity)
  ∧ is_Some (domains (db (snd run)) !! url_hostname (act_actor activity)).
Proof.
  intros Hunknown Hobj Hne Hobject run. subst run.
  unfold Follow_process_activity, get_actors.
  unfold get_actor, query_actor, get_or_create_remote_domain_from_url, create_remote_user,
    object_actor_activitypub_id.
  run. rewrite Hunknown, Hobj.
  destruct (domains (db w) !! url_hostname (act_actor activity)) as [d|] eqn:Hd; simpl;
    rewrite lookup_insert_ne by done; rewrite Hobject; simpl;
    rewrite ?lookup_insert_eq, ?Hd; eauto.
Qed.

End ActorResolutionAgain.

(** ** Errors of the workout lookup *)

Section LookupErrors.
Context `{Collaborators}.

(** X12.  The lookup of the workout is outside the [try] block: with the
    actor resolved and ["workout"] in the envelope [id], an [object] without
    ["id"] makes Delete and Update raise the bare [KeyError], and an [object]
    that is a plain string the bare [TypeError] of Python 3.11; the world is
    untouched. *)
Theorem Delete_Update_unwrapped_lookup_errors (delete : bool) activity w actor :
  let process := if delete then Delete_process_activity else Update_process_activity in
  actors (db w) !! act_actor activity = Some actor →
  str_in "workout" (act_id activity) = true →
  (∀ fields, act_object activity = JObj fields → dict_get "id" fields = None →
     process activity w = (Raises (KeyError "id"), w))
  ∧ (∀ url, act_object activity = JStr url →
       process activity w
       = (Raises (PyException "TypeError" "string indices must be integers, not 'str'"),
          w)).
Proof.
  intros process Hactor Hgate.
  destruct delete; subst process;
    unfold Delete_process_activity, Update_process_activity;
    rewrite (bind_returns _ _ _ _ _ (get_actor_known _ activity false w actor Hactor));
    rewrite Hgate; unfold delete_remote_workout, update_remote_workout;
    (split; [intros fields Hobj Hnone|intros url Hobj]);
    rewrite Hobj; unfold subscript; rewrite ?Hnone; reflexivity.
Qed.

End LookupErrors.

(** ** CreateActivity *)

Section CreateProperties.
Context `{Collaborators} `{WorkoutFactory}.

Lemma bind_pure_inv {A B} (c : M A) (k : A → M B) w r w1 :
  (∀ w, snd (c w) = w) → bind c k w = (r, w1) →
  (w1 = w ∧ ∃ e, r = Raises e) ∨ (∃ a, c w = (Returns a, w) ∧ k a w = (r, w1)).
Proof.
  intros Hpure. specialize (Hpure w). unfold bind.
  destruct (c w) as [[a|e] w']; simpl in Hpure; subst w'.
  - intros Hk. right. by exists a.
  - inversion 1; subst. left. split; [done|by exists e].
Qed.

Lemma get_actor_of_class_known name activity create w a :
  actors (db w) !! act_actor activity = Some a →
  get_actor_of_class name activity create w = (Returns a, w).
Proof. intros Ha. unfold get_actor_of_class, query_actor. run. by rewrite Ha. Qed.

(** X13.  The guards of [CreateActivity], in the order the code applies
    them: an unknown actor raises [ActorNotFoundException] whatever the
    object; an object whose [type] is not ["Workout"] is ignored; a missing
    [sport_id] raises the bare [KeyError]; a falsy [sport_id] or one that
    names no sport raises [SportNotFoundException] before the payload is
    converted.  In each case the world is untouched. *)
Theorem Create_guards activity w :
  (actors (db w) !! act_actor activity = None →
   Create_process_activity activity w
   = (Raises (ActorNotFoundException "actor not found for CreateActivity"), w))
  ∧ (∀ actor fields object_type,
       actors (db w) !! act_actor activity = Some actor →
       act_object activity = JObj fields →
       dict_get "type" fields = Some object_type →
       (json_eq_str object_type "Workout" = false →
        Create_process_activity activity w = (Returns tt, w))
       ∧ (json_eq_str object_type "Workout" = true →
          (dict_get "sport_id" fields = None →
           Create_process_activity activity w = (Raises (KeyError "sport_id"), w))
          ∧ (∀ sport, dict_get "sport_id" fields = Some sport →
               py_not sport = true ∨ sport_exists sport = false →
               Create_process_activity activity w = (Raises SportNotFoundException, w)))).
Proof.
  split.
  - intros Hunknown. unfold Create_process_activity, get_actor_of_class, query_actor.
    run. by rewrite Hunknown.
  - intros actor fields object_type Hactor Hobj Htype.
    unfold Create_process_activity.
    rewrite (bind_returns _ _ _ _ _ (get_actor_of_class_known _ activity false w actor Hactor)).
    rewrite Hobj, (bind_returns _ _ _ _ _ (subscript_get _ _ _ _ Htype)).
    split; intros Hworkout; rewrite Hworkout; [done|].
    unfold create_remote_workout. rewrite Hobj. split.
    + intros Hnone. erewrite bind_raises; [reflexivity|].
      unfold subscript. by rewrite Hnone.
    + intros sport Hsport Hbad.
      rewrite (bind_returns _ _ _ _ _ (subscript_get _ _ _ _ Hsport)).
      destruct Hbad as [Hfalsy|Hmissing].
      * by rewrite Hfalsy.
      * rewrite Hmissing. by destruct (py_not sport).
Qed.

(** X14.  From a clean session, whatever [CreateActivity] does, it never
    alters or removes a stored workout: either the world is left exactly as
    it was, or the handler returns after appending one row to the stored
    workouts, the session being clean again. *)
Theorem Create_appends_at_most_one_row activity w r w1 :
  clean_session w →
  Create_process_activity activity w = (r, w1) →
  w1 = w
  ∨ (r = Returns tt
     ∧ (∃ new, workouts (db w1) = (workouts (db w) ++ [new])%list)
     ∧ clean_session w1).
Proof.
  intros Hclean Hrun. unfold Create_process_activity in Hrun.
  apply bind_pure_inv in Hrun as [(-> & _)|(actor & _ & Hrun)];
    [by left| |intros; apply get_actor_of_class_pure].
  apply bind_pure_inv in Hrun as [(-> & _)|(object_type & _ & Hrun)];
    [by left| |intros; apply subscript_pure].
  destruct (json_eq_str object_type "Workout"); [|inversion Hrun; by left].
  unfold create_remote_workout in Hrun.
  apply bind_pure_inv in Hrun as [(-> & _)|(sport & _ & Hrun)];
    [by left| |intros; apply subscript_pure].
  destruct (py_not sport); [inversion Hrun; by left|].
  destruct (negb (sport_exists sport)); [inversion Hrun; by left|].
  apply bind_pure_inv in Hrun as [(-> & _)|(converted & _ & Hrun)]; [by left| |done].
  apply bind_pure_inv in Hrun as [(-> & _)|(new_workout & _ & Hrun)]; [by left| |done].
  unfold session_add_commit in Hrun.
  destruct (omap flush_error _); inversion Hrun; subst; [|by left].
  right. split; [done|]. simpl.
  rewrite (session_view_clean w Hclean). destruct Hclean as [_ ->]. simpl.
  split; [by eexists|done].
Qed.

(** X15.  [CreateActivity] has no [try] block: an exception raised by the
    conversion of the payload or by the construction of the workout is
    raised as it is, nothing being stored. *)
Theorem Create_does_not_wrap_errors activity w actor fields object_type sport e :
  actors (db w) !! act_actor activity = Some actor →
  act_object activity = JObj fields →
  dict_get "type" fields = Some object_type →
  json_eq_str object_type "Workout" = true →
  dict_get "sport_id" fields = Some sport →
  py_not sport = false →
  sport_exists sport = true →
  convert_workout_activity (JObj fields) = Raises e
  ∨ (∃ converted, convert_workout_activity (JObj fields) = Returns converted
                  ∧ create_workout (actor_user actor) converted = Raises e) →
  Create_process_activity activity w = (Raises e, w).
Proof.
  intros Hactor Hobj Htype Hworkout Hsport Htruthy Hexists Hfails.
  unfold Create_process_activity.
  rewrite (bind_returns _ _ _ _ _ (get_actor_of_class_known _ activity false w actor Hactor)).
  rewrite Hobj, (bind_returns _ _ _ _ _ (subscript_get _ _ _ _ Htype)), Hworkout.
  unfold create_remote_workout. rewrite Hobj.
  rewrite (bind_returns _ _ _ _ _ (subscript_get _ _ _ _ Hsport)), Htruthy, Hexists.
  simpl. unfold lift_outcome. unfold_monad.
  destruct Hfails as [->|(converted & -> & ->)]; reflexivity.
Qed.

End CreateProperties.

(** * Concrete runs *)

Section ConcreteRuns.
Import Fixtures.
#[local] Existing Instance reference_collaborators.

Lemma get_actors_object_actor_witness :
  get_actor UndoActivity undo_follow false known_world = (Returns remote_actor, known_world)
  ∧ get_actors UndoActivity undo_follow false known_world
    = (Returns (remote_actor, actor_1), known_world).
Proof.
  assert (Hactor : get_actor UndoActivity undo_follow false known_world
                   = (Returns remote_actor, known_world)) by reflexivity.
  split; [exact Hactor|].
  destruct (get_actors_object_actor _ _ _ _ _ _ Hactor) as (_ & Hundo & _).
  rewrite (Hundo _ (activitypub_id actor_1) eq_refl eq_refl eq_refl).
  reflexivity.
Defined.

Lemma Follow_process_activity_witness :
  actors (db local_world) !! act_actor follow_activity = None
  ∧ (∃ follower w1,
       get_actor FollowActivity follow_activity true local_world = (Returns follower, w1)
       ∧ activitypub_id follower = act_actor follow_activity
       ∧ actors (db w1) !! activitypub_id actor_1 = Some actor_1
       ∧ Follow_process_activity follow_activity local_world
         = (Returns tt,
            set_db (set_follow_requests
                      (insert (user_id (actor_user follower), 1) Pending)) w1))
  ∧ Follow_process_activity follow_activity rejected_world
    = (Raises FollowRequestAlreadyRejectedError,
       logged "Follow activity: follow request already rejected." rejected_world)
  ∧ fst (Follow_process_activity follow_nobody local_world)
    = Raises (ActorNotFoundException "object actor not found for FollowActivity").
Proof.
  split; [reflexivity|]. split; [|split].
  - destruct (@Follow_process_activity_spec reference_collaborators follow_activity
                local_world (activitypub_id actor_1) (or_introl eq_refl))
      as (follower & w1 & Hactor & _ & Hcreated & Hothers & _ & Hrun).
    exists follower, w1. split; [exact Hactor|]. split; [exact (proj1 Hcreated)|].
    assert (Hobject : actors (db w1) !! activitypub_id actor_1 = Some actor_1).
    { rewrite Hothers; [reflexivity|by vm_compute]. }
    split; [exact Hobject|]. rewrite Hobject in Hrun. exact Hrun.
  - destruct (@Follow_process_activity_spec reference_collaborators follow_activity
                rejected_world (activitypub_id actor_1) (or_introl eq_refl))
      as (follower & w1 & _ & _ & Hknown & _ & _ & Hrun).
    destruct Hknown as [-> ->]. exact Hrun.
  - destruct (@Follow_process_activity_spec reference_collaborators follow_nobody
                local_world "https://example.com/federation/user/nobody"
                (or_introl eq_refl))
      as (follower & w1 & _ & _ & _ & Hothers & _ & Hrun).
    rewrite Hothers in Hrun by (by vm_compute). simpl in Hrun. by rewrite Hrun.
Defined.

(** An unknown actor that follows itself: the object actor is unknown when
    the activity arrives, yet the handler does not raise
    [ActorNotFoundException]; the actor is created as follower and then
    found as object actor. *)
Lemma Follow_unknown_actor_following_itself :
  let run := Follow_process_activity follow_self local_world in
  act_object follow_self = JStr (act_actor follow_self)
  ∧ actors (db local_world) !! act_actor follow_self = None
  ∧ fst run = Returns tt
  ∧ fst run ≠ Raises (ActorNotFoundException "object actor not found for FollowActivity")
  ∧ is_Some (actors (db (snd run)) !! act_actor follow_self).
Proof.
  split; [reflexivity|]. split; [reflexivity|]. split; [reflexivity|].
  split; [by vm_compute|]. vm_compute. eauto.
Qed.

Lemma Accept_Reject_process_activity_witness :
  actors (db pending_world) !! act_actor accept_activity = Some remote_actor
  ∧ Accept_process_activity accept_activity pending_world
    = (Returns tt, set_db (set_follow_requests (insert (1, 3) Accepted)) pending_world)
  ∧ Accept_process_activity accept_activity accepted_world
    = (Raises FollowRequestAlreadyProcessedError,
       logged "AcceptActivity: follow request already processed." accepted_world)
  ∧ Reject_process_activity accept_activity local_world
    = (Raises (ActorNotFoundException "actor not found for RejectActivity"), local_world)
  ∧ fst (approves_follow_request_from remote_user user_1
           (snd ((send_follow_request_to user_1 remote_user ;;;
                  rejects_follow_request_from remote_user user_1) local_world)))
    = Raises FollowRequestAlreadyProcessedError.
Proof.
  destruct (Accept_Reject_process_activity_spec true accept_activity pending_world)
    as (_ & _ & Hpending & _).
  destruct (Accept_Reject_process_activity_spec true accept_activity accepted_world)
    as (_ & _ & Haccepted & _).
  destruct (Accept_Reject_process_activity_spec false accept_activity local_world)
    as (Hunknown & _ & _ & Hagain).
  split; [reflexivity|].
  assert (Hfollower :
            act_object accept_activity = JStr (activitypub_id actor_1)
            ∨ (∃ fields, act_object accept_activity = JObj fields
                         ∧ act_type accept_activity ≠ "Undo"
                         ∧ dict_get "actor" fields = Some (JStr (activitypub_id actor_1)))).
  { right. eexists. split; [reflexivity|]. split; [by vm_compute|reflexivity]. }
  split; [exact (Hpending remote_actor actor_1 _ eq_refl Hfollower eq_refl)|].
  split; [exact (Haccepted remote_actor actor_1 _ eq_refl Hfollower eq_refl)|].
  split; [exact (Hunknown eq_refl)|].
  destruct (Hagain user_1 remote_user eq_refl) as (w2 & Hrun & Hraise).
  rewrite Hrun. simpl. by rewrite Hraise.
Defined.

Lemma Undo_process_activity_witness :
  Undo_process_activity undo_follow known_world
  = (Returns tt, set_db (set_follow_requests (delete (3, 1))) known_world)
  ∧ Undo_process_activity undo_follow pending_world
    = (Raises NotExistingFollowRequestError,
       logged "UndoActivity: follow request does not exist." pending_world).
Proof.
  destruct (Undo_process_activity_spec undo_follow known_world _ _ eq_refl eq_refl)
    as (_ & Hknown).
  destruct (Undo_process_activity_spec undo_follow pending_world _ _ eq_refl eq_refl)
    as (_ & Hpending).
  destruct (Hknown eq_refl) as (_ & _ & Herase).
  destruct (Hpending eq_refl) as (_ & _ & Hmissing).
  split.
  - exact (Herase remote_actor actor_1 _ eq_refl eq_refl eq_refl eq_refl).
  - exact (Hmissing remote_actor actor_1 _ eq_refl eq_refl eq_refl eq_refl).
Defined.

(** The follower of an [Undo] is not created: on a world where the remote
    actor is unknown the handler raises and creates nothing, whereas the
    [Follow] of the same actor creates it. *)
Lemma Undo_unknown_follower_not_created :
  actors (db local_world) !! act_actor undo_follow = None
  ∧ act_actor follow_activity = act_actor undo_follow
  ∧ Undo_process_activity undo_follow local_world
    = (Raises (ActorNotFoundException "actor not found for UndoActivity"), local_world)
  ∧ is_Some (actors (db (snd (Follow_process_activity follow_activity local_world)))
               !! act_actor follow_activity).
Proof.
  split; [reflexivity|]. split; [reflexivity|]. split; [reflexivity|].
  vm_compute. eauto.
Qed.

Lemma Delete_Update_process_activity_witness :
  Delete_process_activity (delete_activity remote_actor_2) federated_world
  = (Raises (ActivityException
               "DeleteActivity: activity actor does not match workout actor."),
     federated_world)
  ∧ Update_process_activity (update_activity remote_actor_2 "2018-05-15 14:05")
      federated_world
    = (Raises (ActivityException
                 "UpdateActivity: activity actor does not match workout actor."),
       federated_world)
  ∧ Delete_process_activity (delete_activity remote_actor) known_world
    = (Raises (ObjectNotFoundException "workout" "DeleteActivity"), known_world)
  ∧ Delete_process_activity delete_actor_activity known_world = (Returns tt, known_world).
Proof.
  destruct (Delete_Update_process_activity_spec true (delete_activity remote_actor_2)
              federated_world) as (_ & Hdelete).
  destruct (Delete_Update_process_activity_spec false
              (update_activity remote_actor_2 "2018-05-15 14:05") federated_world)
    as (_ & Hupdate).
  destruct (Delete_Update_process_activity_spec true (delete_activity remote_actor)
              known_world) as (_ & Hmissing).
  destruct (Delete_Update_process_activity_spec true delete_actor_activity known_world)
    as (_ & Hgate).
  destruct (Hdelete remote_actor_2 eq_refl) as (_ & _ & Hdelete').
  destruct (Hupdate remote_actor_2 eq_refl) as (_ & _ & Hupdate').
  destruct (Hmissing remote_actor eq_refl) as (_ & Hmissing' & _).
  destruct (Hgate remote_actor eq_refl) as (Hgate' & _).
  split; [|split; [|split]].
  - refine (Hdelete' _ remote_cycling_workout eq_refl eq_refl eq_refl _). by vm_compute.
  - refine (Hupdate' _ remote_cycling_workout eq_refl eq_refl eq_refl _). by vm_compute.
  - exact (Hmissing' _ eq_refl eq_refl eq_refl).
  - exact (Hgate' eq_refl).
Defined.

(** An envelope whose [id] does not contain ["workout"] is not ignored when
    its actor is unknown: both handlers raise. *)
Lemma Delete_Update_unknown_actor_raises :
  str_in "workout" (act_id delete_actor_activity) = false
  ∧ Delete_process_activity delete_actor_activity local_world
    = (Raises (ActorNotFoundException "actor not found for DeleteActivity"), local_world)
  ∧ Update_process_activity delete_actor_activity local_world
    = (Raises (ActorNotFoundException "actor not found for UpdateActivity"), local_world)
  ∧ fst (Delete_process_activity delete_actor_activity local_world) ≠ Returns tt
  ∧ fst (Update_process_activity delete_actor_activity local_world) ≠ Returns tt.
Proof. repeat split; try reflexivity; by vm_compute. Qed.

Lemma update_remote_workout_failure_witness :
  let run := update_remote_workout (update_activity remote_actor "15/05/2018 14:05")
               remote_actor federated_world in
  fst run
  = Raises (ActivityException
              ("UpdateActivity: invalid Workout activity (ValueError: "
               +:+ "time data '15/05/2018 14:05' does not match format "
               +:+ "'%Y-%m-%d %H:%M')."))
  ∧ db (snd run) = db federated_world
  ∧ workouts (db (snd run)) = [remote_cycling_workout]
  ∧ title <$> session_dirty (snd run) = [JStr "Evening ride"].
Proof.
  intros run.
  set (w1 := snd (assign_and_commit
                    (act_object (update_activity remote_actor "15/05/2018 14:05"))
                    remote_cycling_workout federated_world)).
  assert (Hrun : assign_and_commit
                   (act_object (update_activity remote_actor "15/05/2018 14:05"))
                   remote_cycling_workout federated_world
                 = (Raises (Fixtures.ValueError
                              ("time data '15/05/2018 14:05' does not match format "
                               +:+ "'%Y-%m-%d %H:%M'")), w1))
    by (vm_compute; reflexivity).
  destruct (update_remote_workout_failure
              (update_activity remote_actor "15/05/2018 14:05") remote_actor
              federated_world _ remote_cycling_workout _ _
              eq_refl eq_refl eq_refl Hrun) as (Hraise & Hdb).
  subst run. rewrite Hraise. simpl.
  split; [reflexivity|]. split; [exact Hdb|]. split; [exact (f_equal workouts Hdb)|].
  by vm_compute.
Defined.

(** The owner's well-formed [Update] rewrites the stored row, and the
    owner's [Delete] removes it. *)
Example Update_process_activity_by_owner :
  let run := Update_process_activity (update_activity remote_actor "2018-05-15 14:05")
               federated_world in
  fst run = Returns tt
  ∧ (λ r, (title r, duration r, moving r, workout_visibility r, dt_day (workout_date r)))
      <$> workouts (db (snd run))
    = [(JStr "Evening ride", 3600%Z, 3570%Z, PUBLIC, 15)]
  ∧ session_dirty (snd run) = [].
Proof. by vm_compute. Qed.

Example Delete_process_activity_by_owner :
  let run := Delete_process_activity (delete_activity remote_actor) federated_world in
  fst run = Returns tt ∧ workouts (db (snd run)) = [].
Proof. by vm_compute. Qed.

(** [timedelta(seconds=...)] at the bounds of its range and of a C [int]. *)
Example timedelta_bounds :
  timedelta 86399999999999 = Returns 86399999999999%Z
  ∧ timedelta 86400000000000
    = Raises (OverflowError "days=1000000000; must have magnitude <= 999999999")
  ∧ timedelta (-86399999913600) = Returns (-86399999913600)%Z
  ∧ timedelta (-86399999913601)
    = Raises (OverflowError "days=-1000000000; must have magnitude <= 999999999")
  ∧ timedelta 185542587187199
    = Raises (OverflowError "days=2147483647; must have magnitude <= 999999999")
  ∧ timedelta 185542587187200
    = Raises (OverflowError "Python int too large to convert to C int")
  ∧ timedelta (-185542587187200)
    = Raises (OverflowError "days=-2147483648; must have magnitude <= 999999999")
  ∧ timedelta (-185542587187201)
    = Raises (OverflowError "Python int too large to convert to C int").
Proof. by vm_compute. Qed.

(** A duration beyond the range of [timedelta] aborts the [Update] at its
    third assignment: the exception is wrapped, nothing is persisted, and the
    session object carries the two attributes assigned before. *)
Example Update_process_activity_duration_overflow :
  let run :=
    Update_process_activity
      (update_with remote_actor
         (payload_with "duration" (JStr "30000000000:00:00")
            (workout_payload "2018-05-15 14:05")))
      federated_world in
  fst run
  = Raises (ActivityException
              ("UpdateActivity: invalid Workout activity (OverflowError: "
               +:+ "days=1250000000; must have magnitude <= 999999999)."))
  ∧ workouts (db (snd run)) = [remote_cycling_workout]
  ∧ (λ r, (ave_speed r, distance r, duration r, title r)) <$> session_dirty (snd run)
    = [(JNum "12.0", JNum "12.0", 3600%Z, JStr "Cycling")].
Proof. by vm_compute. Qed.

(** The stand-in for [strptime] on dates that the format accepts or
    refuses. *)
Example strptime_workout_date_cases :
  let date y m d h mi :=
    Returns {| dt_year := y; dt_month := m; dt_day := d; dt_hour := h; dt_minute := mi |} in
  let mismatch s :=
    Raises (ValueError ("time data '" +:+ s +:+ "' does not match format '%Y-%m-%d %H:%M'")) in
  parse_workout_date (JStr "2018-05-15 14:05") = date 2018 5 15 14 5
  ∧ parse_workout_date (JStr "2018-05-15  14:05") = date 2018 5 15 14 5
  ∧ parse_workout_date (JStr "2018-5-1 1:5") = date 2018 5 1 1 5
  ∧ parse_workout_date (JStr "2018-05- 5 00:00") = date 2018 5 5 0 0
  ∧ parse_workout_date (JStr "2016-02-29 10:00") = date 2016 2 29 10 0
  ∧ parse_workout_date (JStr "2018-02-29 10:00")
    = Raises (ValueError "day is out of range for month")
  ∧ parse_workout_date (JStr "2018-04-31 00:00")
    = Raises (ValueError "day is out of range for month")
  ∧ parse_workout_date (JStr "0000-01-01 00:00") = Raises (ValueError "year 0 is out of range")
  ∧ parse_workout_date (JStr "2018-05-15 14:055")
    = Raises (ValueError "unconverted data remains: 5")
  ∧ parse_workout_date (JStr "2018-05-15 14:05:00")
    = Raises (ValueError "unconverted data remains: :00")
  ∧ parse_workout_date (JStr "2018-05-32 00:00") = mismatch "2018-05-32 00:00"
  ∧ parse_workout_date (JStr "2018-13-01 00:00") = mismatch "2018-13-01 00:00"
  ∧ parse_workout_date (JStr "2018-05-15 24:00") = mismatch "2018-05-15 24:00"
  ∧ parse_workout_date (JStr "2018-05-15T14:05") = mismatch "2018-05-15T14:05"
  ∧ parse_workout_date (JStr "15/05/2018 14:05") = mismatch "15/05/2018 14:05"
  ∧ parse_workout_date (JNum "1526393100")
    = Raises (PyException "TypeError" "strptime() argument 1 must be str, not int")
  ∧ parse_workout_date JNull
    = Raises (PyException "TypeError" "strptime() argument 1 must be str, not None").
Proof. by vm_compute. Qed.

Import Visibility.

Lemma can_view_workout_decision_table_witness :
  can_view_workout (db_user_1_to_user_2 true FOLLOWERS PRIVATE)
    (workout_cycling_user_2 FOLLOWERS) workout_visibility_field (Some user_1)
  = (true, "follower")
  ∧ can_view_workout (db_user_1_to_user_2 true FOLLOWERS PRIVATE)
      (workout_cycling_user_2 FOLLOWERS) workout_visibility_field (Some user_2)
    = (true, "owner").
Proof.
  destruct (can_view_workout_decision_table (db_user_1_to_user_2 true FOLLOWERS PRIVATE)
              (workout_cycling_user_2 FOLLOWERS) workout_visibility_field (Some user_1))
    as (_ & Hother).
  destruct (can_view_workout_decision_table (db_user_1_to_user_2 true FOLLOWERS PRIVATE)
              (workout_cycling_user_2 FOLLOWERS) workout_visibility_field (Some user_2))
    as (Howner & _).
  split; [|exact (Howner user_2 eq_refl eq_refl)].
  destruct Hother as ((_ & Hfollower) & _ & _ & Hallowed).
  { intros u [= <-]. by vm_compute. }
  simpl in Hallowed.
  assert (Hrelation : snd (can_view_workout (db_user_1_to_user_2 true FOLLOWERS PRIVATE)
                             (workout_cycling_user_2 FOLLOWERS) workout_visibility_field
                             (Some user_1)) = "follower").
  { apply Hfollower. exists user_1. split; reflexivity. }
  pose proof (proj2 Hallowed Hrelation) as Hgranted.
  destruct (can_view_workout _ _ _ _) as [allowed relation]. simpl in *.
  by subst.
Defined.

(** The cases of [TestCanViewWorkout] and [TestCanViewWorkoutMap]. *)
Example test_workout_owner_can_view_his_workout field :
  Forall (λ level,
            can_view_workout (db_user_1_to_user_2 false level level)
              (workout_cycling_user_2 level) field (Some user_2) = (true, "owner"))
    [PRIVATE; FOLLOWERS; PUBLIC].
Proof. destruct field; by repeat constructor. Qed.

Example test_follower_can_not_view_workout_when_private field :
  can_view_workout (db_user_1_to_user_2 true PRIVATE PRIVATE)
    (workout_cycling_user_2 PRIVATE) field (Some user_1) = (false, "follower").
Proof. by destruct field. Qed.

Example test_follower_can_view_workout_when_public_or_follower_only field :
  Forall (λ level,
            can_view_workout (db_user_1_to_user_2 true level level)
              (workout_cycling_user_2 level) field (Some user_1) = (true, "follower"))
    [FOLLOWERS; PUBLIC].
Proof. destruct field; by repeat constructor. Qed.

Example test_another_user_can_not_view_workout_when_private_or_follower_only field :
  Forall (λ level,
            Forall (λ viewer,
                      can_view_workout (db_user_1_to_user_2 false level level)
                        (workout_cycling_user_2 level) field viewer = (false, "other"))
              [Some user_1; None])
    [PRIVATE; FOLLOWERS].
Proof. destruct field; by repeat constructor. Qed.

Example test_another_user_can_view_workout_when_public field :
  Forall (λ viewer,
            can_view_workout (db_user_1_to_user_2 false PUBLIC PUBLIC)
              (workout_cycling_user_2 PUBLIC) field viewer = (true, "other"))
    [Some user_1; None].
Proof. destruct field; by repeat constructor. Qed.

Lemma get_workout_blocked_viewer_witness :
  get_workout (db_user_2_to_user_1 true true PUBLIC) (short_id (workout_cycling_user_1 PUBLIC))
    (Some user_2) = Raises WorkoutForbiddenException
  ∧ get_workout (db_user_2_to_user_1 true false PUBLIC)
      (short_id (workout_cycling_user_1 PUBLIC)) (Some user_2)
    = Returns (workout_cycling_user_1 PUBLIC).
Proof.
  split; [|reflexivity].
  refine (get_workout_blocked_viewer (db_user_2_to_user_1 true true PUBLIC)
            (short_id (workout_cycling_user_1 PUBLIC)) (workout_cycling_user_1 PUBLIC)
            user_2 eq_refl _).
  apply (bool_decide_unpack _). by vm_compute.
Defined.

Lemma get_workout_ignores_admin_rights_witness :
  get_workout (db_user_2_to_user_1 false false FOLLOWERS)
    (short_id (workout_cycling_user_1 FOLLOWERS)) (Some user_2_admin)
  = Raises WorkoutForbiddenException
  ∧ get_workout (db_user_2_to_user_1 false false PUBLIC)
      (short_id (workout_cycling_user_1 PUBLIC)) (Some user_2_admin)
    = Returns (workout_cycling_user_1 PUBLIC).
Proof.
  destruct (get_workout_ignores_admin_rights (db_user_2_to_user_1 false false FOLLOWERS)
              (short_id (workout_cycling_user_1 FOLLOWERS)) user_2 true) as (_ & Hrefused).
  destruct (get_workout_ignores_admin_rights (db_user_2_to_user_1 false false PUBLIC)
              (short_id (workout_cycling_user_1 PUBLIC)) user_2 true) as (_ & Hpublic).
  split.
  - refine (Hrefused (workout_cycling_user_1 FOLLOWERS) eq_refl _ _); by vm_compute.
  - refine (Hpublic (workout_cycling_user_1 PUBLIC) eq_refl _ _ _); by vm_compute.
Defined.

(** The cases of [TestGetWorkoutForPublicWorkout],
    [TestGetWorkoutForFollowerOnlyWorkout] and
    [TestGetWorkoutForPrivateWorkout]: the viewer is absent, not a follower, a
    follower, the owner, blocked by the owner, an admin. *)
Example TestGetWorkoutForPublicWorkout :
  get_workout_cases PUBLIC
  = [ Returns (workout_cycling_user_1 PUBLIC); Returns (workout_cycling_user_1 PUBLIC);
      Returns (workout_cycling_user_1 PUBLIC); Returns (workout_cycling_user_1 PUBLIC);
      Raises WorkoutForbiddenException; Returns (workout_cycling_user_1 PUBLIC) ].
Proof. by vm_compute. Qed.

Example TestGetWorkoutForFollowerOnlyWorkout :
  get_workout_cases FOLLOWERS
  = [ Raises WorkoutForbiddenException; Raises WorkoutForbiddenException;
      Returns (workout_cycling_user_1 FOLLOWERS);
      Returns (workout_cycling_user_1 FOLLOWERS);
      Raises WorkoutForbiddenException; Raises WorkoutForbiddenException ].
Proof. by vm_compute. Qed.

Example TestGetWorkoutForPrivateWorkout :
  get_workout_cases PRIVATE
  = [ Raises WorkoutForbiddenException; Raises WorkoutForbiddenException;
      Raises WorkoutForbiddenException; Returns (workout_cycling_user_1 PRIVATE);
      Raises WorkoutForbiddenException; Raises WorkoutForbiddenException ].
Proof. by vm_compute. Qed.

Import FanOut.

Lemma select_recipients_witness :
  select_recipients (fan_out_db [(3, 1, Accepted); (2, 1, Accepted)])
    (workout_cycling_user_1 FOLLOWERS_AND_REMOTE)
  = [ {| sender_id := 11;
         activity := workout_activity (workout_cycling_user_1 FOLLOWERS_AND_REMOTE);
         recipients := ["https://remote.fittrackee.example/federation/inbox"] |} ]
  ∧ select_recipients (fan_out_db [(3, 1, Accepted); (2, 1, Accepted)])
      (workout_cycling_user_1 FOLLOWERS) = []
  ∧ select_recipients (fan_out_db [(2, 1, Accepted); (3, 1, Pending)])
      (workout_cycling_user_1 PUBLIC) = [].
Proof.
  destruct (select_recipients_spec (fan_out_db [(3, 1, Accepted); (2, 1, Accepted)])
              (workout_cycling_user_1 FOLLOWERS_AND_REMOTE)) as (_ & Hone & _).
  destruct (select_recipients_spec (fan_out_db [(3, 1, Accepted); (2, 1, Accepted)])
              (workout_cycling_user_1 FOLLOWERS)) as (Hlocal_level & _ & _).
  destruct (select_recipients_spec (fan_out_db [(2, 1, Accepted); (3, 1, Pending)])
              (workout_cycling_user_1 PUBLIC)) as (_ & _ & Hlocal_followers).
  split; [|split].
  - refine (Hone (activitypub_id remote_actor) remote_actor (or_introl eq_refl) eq_refl _ _).
    + split; reflexivity.
    + refine (proj1 (map_Forall_lookup
                       (λ url' a, accepted_remote_follower _ _ a → url' = _) _) _).
      apply (bool_decide_unpack _). by vm_compute.
  - apply Hlocal_level. by right.
  - apply Hlocal_followers.
    refine (proj1 (map_Forall_lookup
                     (λ _ a, follow_requests _ !! (user_id (actor_user a), _)
                             = Some Accepted
                             → domain_is_remote (actor_domain a) = false) _) _).
    apply (bool_decide_unpack _). by vm_compute.
Defined.

(** The cases of [TestFederationPostWorkoutWithoutGpx]. *)
Example test_it_does_not_call_sent_to_inbox_if_user_has_no_remote_followers :
  select_recipients (fan_out_db [(2, 1, Accepted)])
    (workout_cycling_user_1 FOLLOWERS_AND_REMOTE) = [].
Proof. by vm_compute. Qed.

Example test_it_does_not_call_sent_to_inbox_if_privacy_is_local_followers_only :
  select_recipients (fan_out_db [(3, 1, Accepted)]) (workout_cycling_user_1 FOLLOWERS) = [].
Proof. by vm_compute. Qed.

Example test_it_does_not_call_sent_to_inbox_if_workout_is_private :
  select_recipients (fan_out_db [(3, 1, Accepted)]) (workout_cycling_user_1 PRIVATE) = [].
Proof. by vm_compute. Qed.

Example test_it_calls_sent_to_inbox_if_user_has_follower_from_remote_fittrackee_instance :
  Forall (λ level,
            select_recipients (fan_out_db [(3, 1, Accepted)]) (workout_cycling_user_1 level)
            = [ {| sender_id := user_actor_id user_1;
                   activity := workout_activity (workout_cycling_user_1 level);
                   recipients := [shared_inbox_url remote_actor] |} ])
    [FOLLOWERS_AND_REMOTE; PUBLIC].
Proof. repeat constructor; by vm_compute. Qed.

Example test_it_calls_sent_to_inbox_if_user_has_follower_from_remote_other_instance :
  Forall (λ level,
            select_recipients (fan_out_db [(4, 1, Accepted)]) (workout_cycling_user_1 level)
            = [ {| sender_id := user_actor_id user_1;
                   activity := note_activity (workout_cycling_user_1 level);
                   recipients := [shared_inbox_url remote_actor_2] |} ])
    [FOLLOWERS_AND_REMOTE; PUBLIC].
Proof. repeat constructor; by vm_compute. Qed.

(** ** Runs of the workout handlers *)

#[local] Existing Instance reference_factory.

Lemma Delete_removes_the_workout_only_witness :
  let run := Delete_process_activity (delete_activity remote_actor) federated_world in
  fst run = Returns tt ∧ workouts (db (snd run)) = [] ∧ clean_session (snd run).
Proof.
  intros run.
  destruct (@Delete_removes_the_workout_only reference_collaborators
              (delete_activity remote_actor)
              federated_world remote_actor _ remote_workout_ap_id remote_cycling_workout
              (conj eq_refl eq_refl) eq_refl eq_refl eq_refl eq_refl eq_refl eq_refl)
    as (Hreturns & Hrows & Hclean).
  split; [exact Hreturns|]. split; [|exact Hclean].
  subst run. rewrite Hrows. reflexivity.
Defined.

Lemma Delete_twice_is_not_found_witness :
  let w1 := snd (Delete_process_activity (delete_activity remote_actor) federated_world) in
  workouts (db w1) = []
  ∧ Delete_process_activity (delete_activity remote_actor) w1
    = (Raises (ObjectNotFoundException "workout" "DeleteActivity"), w1).
Proof.
  intros w1. split; [reflexivity|].
  refine (@Delete_twice_is_not_found reference_collaborators
            (delete_activity remote_actor) federated_world
            remote_actor _ remote_workout_ap_id remote_cycling_workout
            (conj eq_refl eq_refl) eq_refl eq_refl eq_refl eq_refl eq_refl eq_refl _).
  intros r Hr _. apply elem_of_cons in Hr as [->|Hr]; [done|by apply elem_of_nil in Hr].
Defined.

Lemma Update_overwrites_nine_fields_witness :
  let run := Update_process_activity (update_activity remote_actor "2018-05-15 14:05")
               federated_world in
  fst run = Returns tt
  ∧ workouts (db (snd run))
    = [overwrite remote_cycling_workout (JNum "12.0") (JNum "12.0") 3600 (JNum "15.0")
         3570 (JNum "1") (JStr "Evening ride")
         {| dt_year := 2018; dt_month := 5; dt_day := 15; dt_hour := 14; dt_minute := 5 |}
         PUBLIC]
  ∧ clean_session (snd run).
Proof.
  intros run.
  assert (Hduration : (-999999999 ≤ 3600 `div` 86400 ≤ 999999999)%Z) by (by vm_compute).
  assert (Hmoving : (-999999999 ≤ 3570 `div` 86400 ≤ 999999999)%Z) by (by vm_compute).
  destruct (@Update_overwrites_nine_fields reference_collaborators
              (update_activity remote_actor "2018-05-15 14:05") federated_world
              remote_actor _ remote_workout_ap_id remote_cycling_workout
              (JNum "12.0") (JNum "12.0") (JStr "1:00:00") 3600 (JNum "15.0")
              (JStr "0:59:30") 3570 (JNum "1") (JStr "Evening ride")
              (JStr "2018-05-15 14:05")
              {| dt_year := 2018; dt_month := 5; dt_day := 15;
                 dt_hour := 14; dt_minute := 5 |}
              (JStr "public") PUBLIC
              (conj eq_refl eq_refl) eq_refl eq_refl eq_refl eq_refl eq_refl eq_refl
              eq_refl eq_refl eq_refl eq_refl Hduration eq_refl eq_refl eq_refl Hmoving
              eq_refl eq_refl eq_refl eq_refl eq_refl eq_refl eq_refl)
    as (Hreturns & Hrows & Hclean).
  split; [exact Hreturns|]. split; [|exact Hclean].
  subst run. rewrite Hrows. reflexivity.
Defined.

Lemma Update_twice_is_update_once_witness :
  let w1 := snd (Update_process_activity (update_activity remote_actor "2018-05-15 14:05")
                   federated_world) in
  title <$> workouts (db w1) = [JStr "Evening ride"]
  ∧ Update_process_activity (update_activity remote_actor "2018-05-15 14:05") w1
    = (Returns tt, w1).
Proof.
  intros w1. split; [by vm_compute|].
  assert (Hduration : (-999999999 ≤ 3600 `div` 86400 ≤ 999999999)%Z) by (by vm_compute).
  assert (Hmoving : (-999999999 ≤ 3570 `div` 86400 ≤ 999999999)%Z) by (by vm_compute).
  exact (@Update_twice_is_update_once reference_collaborators
           (update_activity remote_actor "2018-05-15 14:05") federated_world
           remote_actor _ remote_workout_ap_id remote_cycling_workout
           (JNum "12.0") (JNum "12.0") (JStr "1:00:00") 3600 (JNum "15.0")
           (JStr "0:59:30") 3570 (JNum "1") (JStr "Evening ride")
           (JStr "2018-05-15 14:05")
           {| dt_year := 2018; dt_month := 5; dt_day := 15;
              dt_hour := 14; dt_minute := 5 |}
           (JStr "public") PUBLIC
           (conj eq_refl eq_refl) eq_refl eq_refl eq_refl eq_refl eq_refl eq_refl
           eq_refl eq_refl eq_refl eq_refl Hduration eq_refl eq_refl eq_refl Hmoving
           eq_refl eq_refl eq_refl eq_refl eq_refl eq_refl eq_refl).
Defined.


Lemma Update_malformed_date_leaves_session_dirty_witness :
  let run := Update_process_activity (update_activity remote_actor "15/05/2018 14:05")
               federated_world in
  fst run
  = Raises (ActivityException
              ("UpdateActivity: invalid Workout activity (ValueError: "
               +:+ "time data '15/05/2018 14:05' does not match format "
               +:+ "'%Y-%m-%d %H:%M')."))
  ∧ workouts (db (snd run)) = [remote_cycling_workout]
  ∧ (λ r, (title r, moving r, workout_date r, workout_visibility r))
      <$> session_dirty (snd run)
    = [(JStr "Evening ride", 3570%Z, workout_date remote_cycling_workout,
        FOLLOWERS_AND_REMOTE)].
Proof.
  intros run. subst run.
  assert (Hduration : (-999999999 ≤ 3600 `div` 86400 ≤ 999999999)%Z) by (by vm_compute).
  assert (Hmoving : (-999999999 ≤ 3570 `div` 86400 ≤ 999999999)%Z) by (by vm_compute).
  rewrite (@Update_malformed_date_leaves_session_dirty reference_collaborators
             (update_activity remote_actor "15/05/2018 14:05") federated_world
             remote_actor _ remote_workout_ap_id remote_cycling_workout
             (JNum "12.0") (JNum "12.0") (JStr "1:00:00") 3600 (JNum "15.0")
             (JStr "0:59:30") 3570 (JNum "1") (JStr "Evening ride")
             (JStr "15/05/2018 14:05")
             (Fixtures.ValueError
                ("time data '15/05/2018 14:05' does not match format "
                 +:+ "'%Y-%m-%d %H:%M'"))
             (conj eq_refl eq_refl) eq_refl eq_refl eq_refl eq_refl eq_refl eq_refl
             eq_refl eq_refl eq_refl eq_refl Hduration eq_refl eq_refl eq_refl Hmoving
             eq_refl eq_refl eq_refl eq_refl).
  split; [reflexivity|]. split; reflexivity.
Defined.

(** ** Runs of the actor resolution *)

Lemma get_actor_twice_witness :
  let run := get_actor FollowActivity follow_activity true local_world in
  actors (db local_world) !! act_actor follow_activity = None
  ∧ (∃ a, fst run = Returns a
          ∧ get_actor UndoActivity follow_activity false (snd run) = (Returns a, snd run)).
Proof.
  intros run. split; [reflexivity|].
  destruct run as [r w1] eqn:Hrun.
  assert (Hreturns : ∃ a, r = Returns a)
    by (change r with (fst (r, w1)); rewrite <- Hrun; vm_compute; eauto).
  destruct Hreturns as [a ->]. exists a. split; [reflexivity|].
  exact (@get_actor_twice reference_collaborators
           FollowActivity follow_activity true local_world a w1
           UndoActivity false Hrun).
Defined.

Lemma get_actors_malformed_object_witness :
  get_actors AcceptActivity accept_without_actor false known_world
  = (Raises (KeyError "actor"), known_world)
  ∧ get_actors AcceptActivity accept_of_list false known_world
    = (Raises (PyException "TypeError"
                 "list indices must be integers or slices, not str"), known_world).
Proof.
  destruct (@get_actors_malformed_object reference_collaborators
              AcceptActivity accept_without_actor false
              known_world remote_actor known_world eq_refl) as [Hdict _].
  destruct (@get_actors_malformed_object reference_collaborators
              AcceptActivity accept_of_list false
              known_world remote_actor known_world eq_refl) as [_ Hlist].
  split.
  - exact (Hdict _ eq_refl eq_refl).
  - exact (Hlist _ eq_refl).
Defined.

Lemma Follow_failure_keeps_created_actor_witness :
  let run := Follow_process_activity follow_nobody local_world in
  actors (db local_world) !! act_actor follow_nobody = None
  ∧ fst run = Raises (ActorNotFoundException "object actor not found for FollowActivity")
  ∧ is_Some (actors (db (snd run)) !! act_actor follow_nobody)
  ∧ is_Some (domains (db (snd run)) !! "remote.fittrackee.example").
Proof.
  intros run. split; [reflexivity|].
  refine (@Follow_failure_keeps_created_actor reference_collaborators follow_nobody local_world
            "https://example.com/federation/user/nobody" eq_refl eq_refl _ eq_refl).
  by vm_compute.
Defined.

Lemma Delete_Update_unwrapped_lookup_errors_witness :
  str_in "workout" (act_id delete_workout_fan) = true
  ∧ Delete_process_activity delete_workout_fan known_world
    = (Raises (PyException "TypeError" "string indices must be integers, not 'str'"),
       known_world)
  ∧ Update_process_activity delete_without_id known_world
    = (Raises (KeyError "id"), known_world).
Proof.
  destruct (@Delete_Update_unwrapped_lookup_errors reference_collaborators
              true delete_workout_fan known_world
              remote_actor eq_refl eq_refl) as [_ Hstring].
  destruct (@Delete_Update_unwrapped_lookup_errors reference_collaborators
              false delete_without_id known_world
              remote_actor eq_refl eq_refl) as [Hdict _].
  split; [reflexivity|]. split.
  - exact (Hstring _ eq_refl).
  - exact (Hdict _ eq_refl eq_refl).
Defined.

(** ** Runs of [CreateActivity] *)

Lemma Create_guards_witness :
  let payload := workout_payload "2018-05-15 14:05" in
  Create_process_activity (create_activity remote_actor payload) local_world
  = (Raises (ActorNotFoundException "actor not found for CreateActivity"), local_world)
  ∧ Create_process_activity
      (create_activity remote_actor (payload_with "type" (JStr "Note") payload)) known_world
    = (Returns tt, known_world)
  ∧ Create_process_activity
      (create_activity remote_actor (payload_without "sport_id" payload)) known_world
    = (Raises (KeyError "sport_id"), known_world)
  ∧ Create_process_activity
      (create_activity remote_actor (payload_with "sport_id" (JNum "0") payload))
      known_world
    = (Raises SportNotFoundException, known_world)
  ∧ Create_process_activity
      (create_activity remote_actor (payload_with "sport_id" (JNum "9") payload))
      known_world
    = (Raises SportNotFoundException, known_world).
Proof.
  intros payload.
  destruct (@Create_guards reference_collaborators reference_factory
              (create_activity remote_actor payload) local_world)
    as [Hunknown _].
  destruct (@Create_guards reference_collaborators reference_factory
              (create_activity remote_actor (payload_with "type" (JStr "Note") payload))
              known_world) as [_ Hnote].
  destruct (@Create_guards reference_collaborators reference_factory
              (create_activity remote_actor (payload_without "sport_id" payload))
              known_world) as [_ Hmissing].
  destruct (@Create_guards reference_collaborators reference_factory
              (create_activity remote_actor (payload_with "sport_id" (JNum "0") payload))
              known_world) as [_ Hfalsy].
  destruct (@Create_guards reference_collaborators reference_factory
              (create_activity remote_actor (payload_with "sport_id" (JNum "9") payload))
              known_world) as [_ Hnine].
  split; [exact (Hunknown eq_refl)|].
  split; [exact (proj1 (Hnote remote_actor _ _ eq_refl eq_refl eq_refl) eq_refl)|].
  split; [exact (proj1 (proj2 (Hmissing remote_actor _ _ eq_refl eq_refl eq_refl) eq_refl)
                   eq_refl)|].
  split.
  - exact (proj2 (proj2 (Hfalsy remote_actor _ _ eq_refl eq_refl eq_refl) eq_refl)
             _ eq_refl (or_introl eq_refl)).
  - exact (proj2 (proj2 (Hnine remote_actor _ _ eq_refl eq_refl eq_refl) eq_refl)
             _ eq_refl (or_intror eq_refl)).
Defined.

Lemma Create_appends_at_most_one_row_witness :
  let run := Create_process_activity
               (create_activity remote_actor (workout_payload "2018-05-15 14:05"))
               federated_world in
  fst run = Returns tt
  ∧ (∃ new, workouts (db (snd run)) = [remote_cycling_workout; new])
  ∧ clean_session (snd run).
Proof.
  intros run.
  destruct (@Create_appends_at_most_one_row reference_collaborators reference_factory
              (create_activity remote_actor (workout_payload "2018-05-15 14:05"))
              federated_world (fst run) (snd run) (conj eq_refl eq_refl)
              (surjective_pairing run)) as [Hsame|Happended].
  - apply (f_equal (λ w, length (workouts (db w)))) in Hsame. by vm_compute in Hsame.
  - exact Happended.
Defined.

Lemma Create_does_not_wrap_errors_witness :
  Create_process_activity
    (create_activity remote_actor
       (payload_without "workout_date" (workout_payload "2018-05-15 14:05")))
    known_world
  = (Raises (KeyError "workout_date"), known_world)
  ∧ Create_process_activity
      (create_activity remote_actor
         (payload_without "id" (workout_payload "2018-05-15 14:05")))
      known_world
    = (Raises (KeyError "id"), known_world).
Proof.
  split.
  - exact (@Create_does_not_wrap_errors reference_collaborators reference_factory
             (create_activity remote_actor
                (payload_without "workout_date" (workout_payload "2018-05-15 14:05")))
             known_world remote_actor _ _ _ _ eq_refl eq_refl eq_refl eq_refl eq_refl
             eq_refl eq_refl (or_introl eq_refl)).
  - refine (@Create_does_not_wrap_errors reference_collaborators reference_factory
              (create_activity remote_actor
                 (payload_without "id" (workout_payload "2018-05-15 14:05")))
              known_world remote_actor _ _ _ _ eq_refl eq_refl eq_refl eq_refl eq_refl
              eq_refl eq_refl (or_intror _)).
    eexists. split; reflexivity.
Defined.

End ConcreteRuns.
